(** * conference-rag: the administrative scripts

    A shallow embedding of [scripts/06_add_question_cache.py] and
    [scripts/query_tables.py].  Both scripts are straight-line Python that
    talks to the outside world (local JSON files, one HTTP endpoint, the
    Supabase query layer, the console, the clock).  The outside world is a
    record of oracles, [world]; a script is a computation that reads the
    oracles and appends what it does to a [trace]. *)

From stdpp Require Import base numbers list strings gmap pretty.

Local Open Scope Z_scope.

(** ** Python strings

    A Python [str] is a sequence of Unicode code points; slicing and [len]
    count code points, not bytes.  Literals are written as in the source and
    decoded from the UTF-8 bytes of the Rocq string. *)

Definition pystr := list N.

Fixpoint utf8_go (s : string) (need : nat) (acc : N) : pystr :=
  match s with
  | EmptyString => []
  | String a s' =>
      let b := Ascii.N_of_ascii a in
      match need with
      | O =>
          if (b <? 128)%N then b :: utf8_go s' 0 0
          else if (b <? 224)%N then utf8_go s' 1 (b - 192)
          else if (b <? 240)%N then utf8_go s' 2 (b - 224)
          else utf8_go s' 3 (b - 240)
      | S O => (acc * 64 + (b - 128))%N :: utf8_go s' 0 0
      | S n => utf8_go s' n (acc * 64 + (b - 128))
      end
  end.

Definition utf8 (s : string) : pystr := utf8_go s 0 0.

(** [str(n)] of a Python int. *)
Definition str_int (n : Z) : pystr := utf8 (pretty n).

(** [s * n] *)
Definition str_mul (s : pystr) (n : nat) : pystr := mjoin (replicate n s).

(** The line feed, written [\n] in a Python literal. *)
Definition nl : pystr := [10%N].

(** [s[:n]] *)
Definition slice_to (n : nat) (s : pystr) : pystr := take n s.

(** ** Values read from the configuration files

    The scripts never inspect a configuration value: they interpolate it
    into an f-string or hand it to [create_client].  A value is therefore a
    string, or any other JSON value carried with its [str()] rendering. *)

Inductive pyval :=
  | VStr (s : pystr)
  | VOther (rendering : pystr).

Definition py_str (v : pyval) : pystr :=
  match v with VStr s => s | VOther r => r end.

(** What [json.load] returns: an object, or some other top-level value,
    carried with the message of the [TypeError] that subscripting it by a
    string raises. *)
Inductive json_doc :=
  | JObject (d : gmap string pyval)
  | JOther (type_error : pystr).

(** What [open(path)] followed by [json.load] meets on disk: no file, a
    file that may not be read, text that is not JSON (with the message of
    the decoder), or a document. *)
Inductive file :=
  | NoSuchFile
  | NotReadable
  | NotJson (decode_error : pystr)
  | Json (doc : json_doc).

(** ** Exceptions *)

Inductive exn :=
  | FileNotFoundError (path : string)
  | PermissionError (path : string)
  | JSONDecodeError (msg : pystr)
  | TypeError (msg : pystr)
  | KeyError (key : string)
  | LibraryError (msg : pystr).   (* raised inside requests / supabase; [msg] is [str(e)] *)

(** ** The HTTP endpoint and the query layer *)

Record http_request := {
  req_url : pystr;
  req_headers : list (string * pystr);
  req_json : list (string * pystr)
}.

Record http_response := {
  status_code : Z;
  text : pystr
}.

(** The object [create_client(url, key)] returns. *)
Record client := {
  client_url : pyval;
  client_key : pyval
}.

Inductive count_method := Exact.

(** The request the builder chain
    [client.table(t).select(cols, count=c).limit(n)] has assembled. *)
Record query := {
  q_table : string;
  q_columns : list string;
  q_count : option count_method;
  q_limit : option Z
}.

Definition table (name : string) : query :=
  {| q_table := name; q_columns := []; q_count := None; q_limit := None |}.

Definition select (cols : list string) (cnt : option count_method) (q : query) : query :=
  {| q_table := q_table q; q_columns := cols; q_count := cnt; q_limit := q_limit q |}.

Definition limit (n : Z) (q : query) : query :=
  {| q_table := q_table q; q_columns := q_columns q; q_count := q_count q;
     q_limit := Some n |}.

(** The response of [execute()]: the rows and the optional count. *)
Record api_response := {
  data : list (gmap string pyval);
  count : option Z
}.

(** ** The outside world *)

Record world := {
  (** the file a path names *)
  fs : string -> file;
  (** [requests.post]: the exception it raises, or the response *)
  http_post : http_request -> pystr + http_response;
  (** [create_client]: the exception it raises, if any *)
  client_error : pyval -> pyval -> option pystr;
  (** the [n]-th [execute()] of the run (counted from 0): the exception it
      raises, or the response *)
  query_layer : nat -> client -> query -> pystr + api_response
}.

(** ** Traces *)

Inductive event :=
  | Print (line : pystr)
  | Post (req : http_request)
  | CreateClient (url key : pyval)
  | Execute (c : client) (q : query)
  | Sleep (secs : Z).

Definition trace := list event.

Definition is_execute (e : event) : bool :=
  match e with Execute _ _ => true | _ => false end.

Definition is_post (e : event) : bool :=
  match e with Post _ => true | _ => false end.

Definition is_sleep (e : event) : bool :=
  match e with Sleep _ => true | _ => false end.

Definition is_network (e : event) : bool := is_post e || is_execute e.

(** Number of read queries issued so far. *)
Definition queries (t : trace) : nat := length (List.filter is_execute t).

(** Number of migration submissions. *)
Definition posts (t : trace) : nat := length (List.filter is_post t).

(** Number of sleeps, and the time slept. *)
Definition sleeps (t : trace) : nat := length (List.filter is_sleep t).

Definition slept (t : trace) : Z :=
  foldr (fun e acc => match e with Sleep s => s + acc | _ => acc end) 0 t.

(** Number of calls that leave the machine. *)
Definition network_calls (t : trace) : nat := length (List.filter is_network t).

(** The lines printed, in order. *)
Definition printed (t : trace) : list pystr :=
  omap (fun e => match e with Print l => Some l | _ => None end) t.

(** ** Computations *)

Inductive outcome (A : Type) :=
  | Return (a : A)
  | Raise (e : exn)
  | Exit (code : Z).       (* SystemExit, which [except Exception] does not catch *)

Arguments Return {A} a.
Arguments Raise {A} e.
Arguments Exit {A} code.

Definition M (A : Type) : Type := world -> trace -> outcome A * trace.

Definition ret {A} (a : A) : M A := fun _ t => (Return a, t).

Definition bind {A B} (m : M A) (k : A -> M B) : M B :=
  fun w t =>
    match m w t with
    | (Return a, t') => k a w t'
    | (Raise e, t') => (Raise e, t')
    | (Exit c, t') => (Exit c, t')
    end.

Notation "'do' x <- m ; k" := (bind m (fun x => k))
  (at level 10, x name, m at level 100, k at level 200,
   format "'[v' 'do'  x  <-  m ; '/' k ']'").
Notation "'do_' m ; k" := (bind m (fun _ => k))
  (at level 10, m at level 100, k at level 200,
   format "'[v' 'do_'  m ; '/' k ']'").

Definition raise {A} (e : exn) : M A := fun _ t => (Raise e, t).

Definition emit (e : event) : M unit := fun _ t => (Return tt, t ++ [e]).

(** [try: body except Exception as e: handler e] *)
Definition try_except {A} (body : M A) (handler : exn -> M A) : M A :=
  fun w t =>
    match body w t with
    | (Raise e, t') => handler e w t'
    | r => r
    end.

(** [for x in xs: body x], where the body may [return] from the enclosing
    function: [Some v] is [return v], [None] falls through to the next
    iteration (or past the loop). *)
Fixpoint for_in {R} (xs : list Z) (body : Z -> M (option R)) : M (option R) :=
  match xs with
  | [] => ret None
  | x :: xs' =>
      do r <- body x;
      match r with
      | Some v => ret (Some v)
      | None => for_in xs' body
      end
  end.

(** [range(n)] *)
Definition range (n : Z) : list Z := seqZ 0 n.

(** *** The library calls *)

Definition print (line : pystr) : M unit := emit (Print line).

Definition sys_exit {A} (code : Z) : M A := fun _ t => (Exit code, t).

Definition time_sleep (secs : Z) : M unit := emit (Sleep secs).

(** [with open(path) as f: json.load(f)] *)
Definition load_json (path : string) : M json_doc :=
  fun w t =>
    match fs w path with
    | NoSuchFile => (Raise (FileNotFoundError path), t)
    | NotReadable => (Raise (PermissionError path), t)
    | NotJson msg => (Raise (JSONDecodeError msg), t)
    | Json doc => (Return doc, t)
    end.

(** [doc[key]] *)
Definition subscript (doc : json_doc) (key : string) : M pyval :=
  match doc with
  | JObject d =>
      match d !! key with
      | Some v => ret v
      | None => raise (KeyError key)
      end
  | JOther msg => raise (TypeError msg)
  end.

Definition requests_post (req : http_request) : M http_response :=
  fun w t =>
    match http_post w req with
    | inl msg => (Raise (LibraryError msg), t ++ [Post req])
    | inr resp => (Return resp, t ++ [Post req])
    end.

Definition create_client (url key : pyval) : M client :=
  fun w t =>
    match client_error w url key with
    | Some msg => (Raise (LibraryError msg), t ++ [CreateClient url key])
    | None =>
        (Return {| client_url := url; client_key := key |},
         t ++ [CreateClient url key])
    end.

Definition execute (c : client) (q : query) : M api_response :=
  fun w t =>
    match query_layer w (queries t) c q with
    | inl msg => (Raise (LibraryError msg), t ++ [Execute c q])
    | inr r => (Return r, t ++ [Execute c q])
    end.

(** [str(e)] of a caught exception. *)
Definition str_exn (e : exn) : pystr :=
  match e with
  | FileNotFoundError p =>
      utf8 "[Errno 2] No such file or directory: '" ++ utf8 p ++ utf8 "'"
  | PermissionError p =>
      utf8 "[Errno 13] Permission denied: '" ++ utf8 p ++ utf8 "'"
  | JSONDecodeError msg => msg
  | TypeError msg => msg
  | KeyError k => utf8 "'" ++ utf8 k ++ utf8 "'"
  | LibraryError msg => msg
  end.

(** *** Running a script

    The exit status of the interpreter: 0 when the module body runs to its
    end, 1 on an uncaught exception, the argument of [sys.exit] otherwise. *)
Definition exit_code {A} (o : outcome A) : Z :=
  match o with
  | Return _ => 0
  | Raise _ => 1
  | Exit c => c
  end.

Definition run {A} (script : M A) (w : world) : outcome A * trace := script w [].

(** * scripts/06_add_question_cache.py *)

Module AddQuestionCache.

(** The module-level names bound from the two configuration files. *)
Record config := {
  SUPABASE_URL : pyval;
  SUPABASE_SERVICE_KEY : pyval;
  SUPABASE_ACCESS_TOKEN : pyval;
  SUPABASE_PROJECT_REF : pyval
}.

(** Lines 22-30. *)
Definition load_config : M config :=
  do public_config <- load_json "config.public.json";
  do secrets <- load_json "config.secret.json";
  do url <- subscript public_config "SUPABASE_URL";
  do service_key <- subscript secrets "SUPABASE_SERVICE_KEY";
  do access_token <- subscript secrets "SUPABASE_ACCESS_TOKEN";
  do project_ref <- subscript secrets "SUPABASE_PROJECT_REF";
  ret {| SUPABASE_URL := url;
         SUPABASE_SERVICE_KEY := service_key;
         SUPABASE_ACCESS_TOKEN := access_token;
         SUPABASE_PROJECT_REF := project_ref |}.

(** The double quote, which the SQL text uses around policy names. *)
Definition dq : pystr := [34%N].

(** Lines 38-123, character for character. *)
Definition schema_sql : pystr :=
  utf8 "
-- Create question_cache table
CREATE TABLE IF NOT EXISTS question_cache (
    id UUID PRIMARY KEY DEFAULT gen_random_uuid(),
    user_id UUID REFERENCES auth.users(id) ON DELETE CASCADE,
    question TEXT NOT NULL,
    question_embedding VECTOR(1536),
    ai_answer TEXT,
    context_talk_ids UUID[],  -- Array of talk IDs used to generate answer
    created_at TIMESTAMPTZ DEFAULT NOW(),
    updated_at TIMESTAMPTZ DEFAULT NOW()
);

-- Index for exact question lookup (fastest)
CREATE INDEX IF NOT EXISTS idx_question_cache_question 
ON question_cache(question);

-- Index for embedding similarity search (find similar questions)
CREATE INDEX IF NOT EXISTS idx_question_cache_embedding 
ON question_cache USING ivfflat (question_embedding vector_cosine_ops)
WITH (lists = 100);

-- Index for user queries
CREATE INDEX IF NOT EXISTS idx_question_cache_user_id 
ON question_cache(user_id);

-- Index for created_at (to find recent queries)
CREATE INDEX IF NOT EXISTS idx_question_cache_created_at 
ON question_cache(created_at DESC);

-- Enable Row Level Security
ALTER TABLE question_cache ENABLE ROW LEVEL SECURITY;

-- RLS: Users can read their own cached questions
DROP POLICY IF EXISTS "
  ++ dq ++ utf8 "Users can read own questions"
  ++ dq ++ utf8 " ON question_cache;
CREATE POLICY "
  ++ dq ++ utf8 "Users can read own questions"
  ++ dq ++ utf8 "
ON question_cache FOR SELECT
TO authenticated
USING (auth.uid() = user_id);

-- RLS: Users can insert their own questions
DROP POLICY IF EXISTS "
  ++ dq ++ utf8 "Users can insert own questions"
  ++ dq ++ utf8 " ON question_cache;
CREATE POLICY "
  ++ dq ++ utf8 "Users can insert own questions"
  ++ dq ++ utf8 "
ON question_cache FOR INSERT
TO authenticated
WITH CHECK (auth.uid() = user_id);

-- RLS: Users can update their own questions
DROP POLICY IF EXISTS "
  ++ dq ++ utf8 "Users can update own questions"
  ++ dq ++ utf8 " ON question_cache;
CREATE POLICY "
  ++ dq ++ utf8 "Users can update own questions"
  ++ dq ++ utf8 "
ON question_cache FOR UPDATE
TO authenticated
USING (auth.uid() = user_id)
WITH CHECK (auth.uid() = user_id);

-- Create function to find similar cached questions
CREATE OR REPLACE FUNCTION find_similar_questions(
    query_embedding VECTOR(1536),
    similarity_threshold FLOAT DEFAULT 0.95,
    max_results INT DEFAULT 5
)
RETURNS TABLE (
    id UUID,
    question TEXT,
    question_embedding VECTOR(1536),
    ai_answer TEXT,
    similarity FLOAT,
    created_at TIMESTAMPTZ
)
LANGUAGE sql STABLE
AS $$
    SELECT
        question_cache.id,
        question_cache.question,
        question_cache.question_embedding,
        question_cache.ai_answer,
        1 - (question_cache.question_embedding <=> query_embedding) AS similarity,
        question_cache.created_at
    FROM question_cache
    WHERE question_cache.question_embedding IS NOT NULL
        AND question_cache.ai_answer IS NOT NULL
        AND (1 - (question_cache.question_embedding <=> query_embedding)) >= similarity_threshold
    ORDER BY question_cache.question_embedding <=> query_embedding
    LIMIT max_results;
$$;
".

(** [resp.status_code in (200, 201)] *)
Definition accepted (resp : http_response) : bool :=
  (status_code resp =? 200) || (status_code resp =? 201).

(** [c or 0] for an optional int [c]. *)
Definition or_zero (c : option Z) : Z :=
  match c with
  | Some n => if n =? 0 then 0 else n
  | None => 0
  end.

(** Line 125-129. *)
Definition migration_request (g : config) : http_request :=
  {| req_url :=
       utf8 "https://api.supabase.com/v1/projects/"
       ++ py_str (SUPABASE_PROJECT_REF g) ++ utf8 "/database/query";
     req_headers :=
       [("Authorization", utf8 "Bearer " ++ py_str (SUPABASE_ACCESS_TOKEN g));
        ("Content-Type", utf8 "application/json")];
     req_json := [("query", schema_sql)] |}.

(** Line 146: the read that checks the table is visible. *)
Definition verify_query : query :=
  limit 1 (select ["id"] (Some Exact) (table "question_cache")).

(** Lines 145-156: the body of the retry loop. *)
Definition verify_attempt (c : client) (attempt : Z) : M (option bool) :=
  try_except
    (do result <- execute c verify_query;
     do_ print (utf8 "✅ Table verified! Current cached questions: "
                ++ str_int (or_zero (count result)));
     ret (Some true))
    (fun e =>
       if attempt <? 4 then
         do_ print (utf8 "   Waiting for schema cache to refresh... ("
                    ++ str_int (attempt + 1) ++ utf8 "/5)");
         do_ time_sleep 3;
         ret None
       else
         do_ print (utf8 "⚠️  Table created but PostgREST cache hasn't refreshed yet: "
                    ++ str_exn e);
         do_ print (utf8 "   It should be ready shortly.");
         ret (Some true)).

(** Lines 144-156: [for attempt in range(5): ...]. *)
Definition verification_loop (c : client) : M (option bool) :=
  for_in (range 5) (verify_attempt c).

(** Lines 33-156.  The result is [Some b] for [return b] and [None] when
    control falls off the end of the function (Python's [None]). *)
Definition create_question_cache_table (g : config) : M (option bool) :=
  do_ print (str_mul (utf8 "=") 60);
  do_ print (utf8 "Creating Question Cache Table");
  do_ print (str_mul (utf8 "=") 60);
  do_ print (utf8 "Creating question_cache table and indexes...");
  do resp <- requests_post (migration_request g);
  if accepted resp then
    do_ print (utf8 "✅ question_cache table created successfully!");
    do_ print (utf8 "Verifying table creation...");
    do c <- create_client (SUPABASE_URL g) (SUPABASE_SERVICE_KEY g);
    verification_loop c
  else
    do_ print (utf8 "❌ Table creation failed: " ++ str_int (status_code resp));
    do_ print (slice_to 500 (text resp));
    ret (Some false).

(** Truth value of what the function returned. *)
Definition truthy (r : option bool) : bool :=
  match r with Some b => b | None => false end.

(** Lines 159-169. *)
Definition main (g : config) : M unit :=
  do r <- create_question_cache_table g;
  do_ (if negb (truthy r) then sys_exit 1 else ret tt);
  do_ print (nl ++ str_mul (utf8 "=") 60);
  do_ print (utf8 "✅ Question cache table ready!");
  do_ print (str_mul (utf8 "=") 60);
  do_ print (nl ++ utf8 "Next steps:");
  do_ print (utf8 "1. Deploy updated embed-question function");
  do_ print (utf8 "2. Deploy updated generate-answer function");
  print (utf8 "3. Questions and answers will now be cached automatically!").

(** The whole script, run as [python scripts/06_add_question_cache.py]. *)
Definition script : M unit :=
  do g <- load_config;
  main g.

End AddQuestionCache.

(** * scripts/query_tables.py *)

Module QueryTables.

(** [len(xs)] *)
Definition len {A} (xs : list A) : Z := Z.of_nat (length xs).

Definition page_views_query : query :=
  limit 5 (select ["*"] None (table "page_views")).

Definition sentence_embeddings_query : query :=
  limit 5 (select ["*"] None (table "sentence_embeddings")).

Definition script : M unit :=
  do public <- load_json "config.public.json";
  do url <- subscript public "SUPABASE_URL";
  do anon_key <- subscript public "SUPABASE_ANON_KEY";
  do c <- create_client url anon_key;
  do result <- execute c page_views_query;
  do_ print (utf8 "page_views: " ++ str_int (len (data result)) ++ utf8 " rows ✅");
  do result <- execute c sentence_embeddings_query;
  print (utf8 "sentence_embeddings: " ++ str_int (len (data result))
         ++ utf8 " rows (expected: 0) 🔒").

End QueryTables.

(** * Sample worlds

    Concrete environments on which the scripts are evaluated. *)

Module Samples.

Definition public_json : gmap string pyval :=
  {[ "SUPABASE_URL" := VStr (utf8 "https://abc.supabase.co");
     "SUPABASE_ANON_KEY" := VStr (utf8 "anon-key") ]}.

Definition secret_json : gmap string pyval :=
  {[ "SUPABASE_SERVICE_KEY" := VStr (utf8 "service-key");
     "SUPABASE_ACCESS_TOKEN" := VStr (utf8 "sbp_token");
     "SUPABASE_PROJECT_REF" := VStr (utf8 "abc") ]}.

Definition disk (public secret : file) (path : string) : file :=
  if String.eqb path "config.public.json" then public
  else if String.eqb path "config.secret.json" then secret
  else NoSuchFile.

Definition full_disk : string -> file :=
  disk (Json (JObject public_json)) (Json (JObject secret_json)).

(** The configuration [full_disk] loads to. *)
Definition cfg : AddQuestionCache.config :=
  {| AddQuestionCache.SUPABASE_URL := VStr (utf8 "https://abc.supabase.co");
     AddQuestionCache.SUPABASE_SERVICE_KEY := VStr (utf8 "service-key");
     AddQuestionCache.SUPABASE_ACCESS_TOKEN := VStr (utf8 "sbp_token");
     AddQuestionCache.SUPABASE_PROJECT_REF := VStr (utf8 "abc") |}.

Definition schema_cache_stale : pystr :=
  utf8 "Could not find the table 'public.question_cache' in the schema cache".

(** An endpoint answering [status] with [body]; a query layer whose first
    [failures] reads raise and whose later reads see [cnt]. *)
Definition migration_world (disk : string -> file) (status : Z) (body : pystr)
    (failures : nat) (cnt : option Z) : world :=
  {| fs := disk;
     http_post := fun _ => inr {| status_code := status; text := body |};
     client_error := fun _ _ => None;
     query_layer := fun n _ _ =>
       if (n <? failures)%nat then inl schema_cache_stale
       else inr {| data := []; count := cnt |} |}.

Definition row (n : Z) : gmap string pyval :=
  {[ "id" := VOther (str_int n) ]}.

(** A query layer under row-level security: five rows of [page_views], none
    of [sentence_embeddings]. *)
Definition rls_world : world :=
  {| fs := full_disk;
     http_post := fun _ => inl (utf8 "unreachable");
     client_error := fun _ _ => None;
     query_layer := fun _ _ q =>
       if String.eqb (q_table q) "page_views"
       then inr {| data := [row 1; row 2; row 3; row 4; row 5]; count := None |}
       else inr {| data := []; count := None |} |}.

Definition accepted_201 : http_response := {| status_code := 201; text := [] |}.
Definition accepted_200 : http_response := {| status_code := 200; text := [] |}.

(** A body of 600 characters, longer than what the failure report keeps. *)
Definition long_body : pystr := replicate 600 120%N.
Definition rejected_500 : http_response := {| status_code := 500; text := long_body |}.

Definition never_visible : world := migration_world full_disk 201 [] 5 None.
Definition visible_on_fifth : world := migration_world full_disk 200 [] 4 (Some 7).
Definition visible_on_third : world := migration_world full_disk 200 [] 2 (Some 3).
Definition visible_at_once : world := migration_world full_disk 200 [] 0 None.
Definition server_error : world := migration_world full_disk 500 long_body 0 None.
Definition no_secret_file : world :=
  migration_world (disk (Json (JObject public_json)) NoSuchFile) 200 [] 0 None.

(** A public file without the anonymous key, a full secret file, an
    endpoint that accepts and a query layer that answers at once. *)
Definition no_anon_key_world : world :=
  migration_world
    (disk
       (Json (JObject {[ "SUPABASE_URL" := VStr (utf8 "https://abc.supabase.co") ]}))
       (Json (JObject secret_json)))
    200 [] 0 (Some 0).

(** A management endpoint that cannot be reached. *)
Definition unreachable_endpoint : world :=
  {| fs := full_disk;
     http_post := fun _ => inl (utf8 "Connection refused");
     client_error := fun _ _ => None;
     query_layer := fun _ _ _ => inr {| data := []; count := None |} |}.

(** An endpoint that accepts, and a client library that rejects the key. *)
Definition client_refused : world :=
  {| fs := full_disk;
     http_post := fun _ => inr accepted_200;
     client_error := fun _ _ => Some (utf8 "Invalid API key");
     query_layer := fun _ _ _ => inr {| data := []; count := None |} |}.

(** [visible_at_once] with a public file that holds the service URL only. *)
Definition url_only_visible : world :=
  migration_world
    (disk
       (Json (JObject {[ "SUPABASE_URL" := VStr (utf8 "https://abc.supabase.co") ]}))
       (Json (JObject secret_json)))
    200 [] 0 None.

(** Query layers for the demo that raise on the first, or on the second,
    read; and a machine without the public file. *)
Definition rls_first_fails : world :=
  {| fs := full_disk;
     http_post := fun _ => inl (utf8 "unreachable");
     client_error := fun _ _ => None;
     query_layer := fun _ _ _ => inl (utf8 "permission denied for table page_views") |}.

Definition rls_second_fails : world :=
  {| fs := full_disk;
     http_post := fun _ => inl (utf8 "unreachable");
     client_error := fun _ _ => None;
     query_layer := fun n _ _ =>
       match n with
       | O => inr {| data := [row 1; row 2]; count := None |}
       | _ => inl (utf8 "permission denied for table sentence_embeddings")
       end |}.

Definition no_public_file : world :=
  {| fs := disk NoSuchFile (Json (JObject secret_json));
     http_post := fun _ => inl (utf8 "unreachable");
     client_error := fun _ _ => None;
     query_layer := fun _ _ _ => inr {| data := []; count := None |} |}.

(** [rls_world] on a machine whose secret file is gone and whose route to
    the management endpoint answers. *)
Definition rls_world_no_secret : world :=
  {| fs := disk (Json (JObject public_json)) NoSuchFile;
     http_post := fun _ => inr accepted_200;
     client_error := fun _ _ => None;
     query_layer := fun _ _ q =>
       if String.eqb (q_table q) "page_views"
       then inr {| data := [row 1; row 2; row 3; row 4; row 5]; count := None |}
       else inr {| data := []; count := None |} |}.

End Samples.

(** * Vocabulary of the statements *)

Import AddQuestionCache.

(** The lines the scripts print. *)
Definition banner : pystr := str_mul (utf8 "=") 60.

Definition created_line : pystr :=
  utf8 "✅ question_cache table created successfully!".

Definition failed_line (status : Z) : pystr :=
  utf8 "❌ Table creation failed: " ++ str_int status.

Definition verified_line (cnt : Z) : pystr :=
  utf8 "✅ Table verified! Current cached questions: " ++ str_int cnt.

Definition waiting_line (attempt : Z) : pystr :=
  utf8 "   Waiting for schema cache to refresh... ("
  ++ str_int (attempt + 1) ++ utf8 "/5)".

Definition warning_line (msg : pystr) : pystr :=
  utf8 "⚠️  Table created but PostgREST cache hasn't refreshed yet: " ++ msg.

Definition ready_line : pystr := utf8 "   It should be ready shortly.".

(** What [create_question_cache_table] does up to and including the POST. *)
Definition submission (g : config) : trace :=
  [Print banner; Print (utf8 "Creating Question Cache Table"); Print banner;
   Print (utf8 "Creating question_cache table and indexes...");
   Post (migration_request g)].

(** The client the verification uses. *)
Definition service_client (g : config) : client :=
  {| client_url := SUPABASE_URL g; client_key := SUPABASE_SERVICE_KEY g |}.

(** What happens between an accepted POST and the first read. *)
Definition handover (g : config) : trace :=
  [Print created_line; Print (utf8 "Verifying table creation...");
   CreateClient (SUPABASE_URL g) (SUPABASE_SERVICE_KEY g)].

(** One failed, non-final attempt: the read, the progress line, the sleep. *)
Definition retry_round (c : client) (i : nat) : trace :=
  [Execute c verify_query; Print (waiting_line (Z.of_nat i)); Sleep 3].

(** [k] such rounds in a row, for the attempts [i], [i+1], ... *)
Fixpoint retry_rounds (c : client) (i k : nat) : trace :=
  match k with
  | O => []
  | S k' => retry_round c i ++ retry_rounds c (S i) k'
  end.

(** The end of a verification that saw the table. *)
Definition verified_tail (c : client) (r : api_response) : trace :=
  [Execute c verify_query; Print (verified_line (or_zero (count r)))].

(** The end of a verification whose final read raised: the soft warning. *)
Definition warning_tail (c : client) (msg : pystr) : trace :=
  [Execute c verify_query; Print (warning_line msg); Print ready_line].

(** The closing banner of [main]. *)
Definition closing : trace :=
  [Print (nl ++ banner); Print (utf8 "✅ Question cache table ready!");
   Print banner; Print (nl ++ utf8 "Next steps:");
   Print (utf8 "1. Deploy updated embed-question function");
   Print (utf8 "2. Deploy updated generate-answer function");
   Print (utf8 "3. Questions and answers will now be cached automatically!")].

(** The [n]-th read of the run raises / returns [r]. *)
Definition read_fails (w : world) (c : client) (n : nat) : Prop :=
  exists msg, query_layer w n c verify_query = inl msg.

Definition read_returns (w : world) (c : client) (n : nat) (r : api_response) : Prop :=
  query_layer w n c verify_query = inr r.

(** The configuration the two files hold, as the script binds it. *)
Definition loads (w : world) (g : config) : Prop :=
  exists pub sec,
    fs w "config.public.json" = Json (JObject pub) /\
    fs w "config.secret.json" = Json (JObject sec) /\
    pub !! "SUPABASE_URL" = Some (SUPABASE_URL g) /\
    sec !! "SUPABASE_SERVICE_KEY" = Some (SUPABASE_SERVICE_KEY g) /\
    sec !! "SUPABASE_ACCESS_TOKEN" = Some (SUPABASE_ACCESS_TOKEN g) /\
    sec !! "SUPABASE_PROJECT_REF" = Some (SUPABASE_PROJECT_REF g).

(** The event of [create_client]. *)
Definition is_create_client (e : event) : bool :=
  match e with CreateClient _ _ => true | _ => false end.


(** The client [create_client(url, key)] returns. *)
Definition client_of (url key : pyval) : client :=
  {| client_url := url; client_key := key |}.

(** The exceptions the configuration load can end in. *)
Definition is_config_error (e : exn) : bool :=
  match e with
  | FileNotFoundError _ | PermissionError _ | JSONDecodeError _
  | TypeError _ | KeyError _ => true
  | LibraryError _ => false
  end.

(** How a verification ended: after [k] retry rounds the table was seen, or
    the fifth read raised and the soft warning was printed. *)
Inductive ending (c : client) : nat -> trace -> Prop :=
  | Verified k r :
      (k <= 4)%nat -> ending c k (verified_tail c r)
  | Warned msg :
      ending c 4 (warning_tail c msg).

(** The runs of the script once the configuration is loaded. *)
Inductive run_shape (w : world) (g : config) : outcome unit * trace -> Prop :=
  | PostRaised msg :
      http_post w (migration_request g) = inl msg ->
      run_shape w g (Raise (LibraryError msg), submission g)
  | Rejected resp :
      http_post w (migration_request g) = inr resp ->
      accepted resp = false ->
      run_shape w g
        (Exit 1, submission g ++ [Print (failed_line (status_code resp));
                                  Print (slice_to 500 (text resp))])
  | ClientRaised resp msg :
      http_post w (migration_request g) = inr resp ->
      accepted resp = true ->
      client_error w (SUPABASE_URL g) (SUPABASE_SERVICE_KEY g) = Some msg ->
      run_shape w g (Raise (LibraryError msg), submission g ++ handover g)
  | Verification resp k tail :
      http_post w (migration_request g) = inr resp ->
      accepted resp = true ->
      ending (service_client g) k tail ->
      (forall j, (j < k)%nat -> read_fails w (service_client g) j) ->
      run_shape w g
        (Return tt,
         submission g ++ handover g
         ++ retry_rounds (service_client g) 0 k ++ tail ++ closing).

(** A run that got as far as the verification: the configuration loaded to
    [g], the endpoint answered [resp] with 200 or 201, and the client was
    created. *)
Record reaches_verification (w : world) (g : config) (resp : http_response) : Prop := {
  rv_loads : loads w g;
  rv_post : http_post w (migration_request g) = inr resp;
  rv_status : status_code resp = 200 \/ status_code resp = 201;
  rv_client : client_error w (SUPABASE_URL g) (SUPABASE_SERVICE_KEY g) = None
}.

(** The configuration as sections 4.1 and 6 of the specification require
    it: both files are objects, the public one with the service URL and the
    anonymous key, the secret one with the service key, the management
    access token and the project identifier. *)
Definition spec_config_complete (w : world) : Prop :=
  exists pub sec,
    fs w "config.public.json" = Json (JObject pub) /\
    fs w "config.secret.json" = Json (JObject sec) /\
    is_Some (pub !! "SUPABASE_URL") /\
    is_Some (pub !! "SUPABASE_ANON_KEY") /\
    is_Some (sec !! "SUPABASE_SERVICE_KEY") /\
    is_Some (sec !! "SUPABASE_ACCESS_TOKEN") /\
    is_Some (sec !! "SUPABASE_PROJECT_REF").

(** ** Vocabulary of the further properties *)

(** Two worlds whose endpoint, client library and query layer answer
    alike; their disks may differ. *)
Definition same_services (w w' : world) : Prop :=
  (forall req, http_post w req = http_post w' req) /\
  (forall url key, client_error w url key = client_error w' url key) /\
  (forall n c q, query_layer w n c q = query_layer w' n c q).

(** A computation that consults the services only, never the disk. *)
Definition service_only {A} (m : M A) : Prop :=
  forall w w' t, same_services w w' -> m w t = m w' t.


(** The lines of the demo. *)
Definition page_views_line (rows : nat) : pystr :=
  utf8 "page_views: " ++ str_int (Z.of_nat rows) ++ utf8 " rows ✅".

Definition sentence_embeddings_line (rows : nat) : pystr :=
  utf8 "sentence_embeddings: " ++ str_int (Z.of_nat rows)
  ++ utf8 " rows (expected: 0) 🔒".

(** The public file holds what the demo binds. *)
Definition demo_loads (w : world) (url key : pyval) : Prop :=
  exists pub,
    fs w "config.public.json" = Json (JObject pub) /\
    pub !! "SUPABASE_URL" = Some url /\
    pub !! "SUPABASE_ANON_KEY" = Some key.

(** The runs of the demo. *)
Inductive demo_shape (w : world) : outcome unit * trace -> Prop :=
  | DemoConfig e :
      is_config_error e = true ->
      (forall url key, ~ demo_loads w url key) ->
      demo_shape w (Raise e, [])
  | DemoClient url key msg :
      demo_loads w url key ->
      client_error w url key = Some msg ->
      demo_shape w (Raise (LibraryError msg), [CreateClient url key])
  | DemoFirst url key msg :
      demo_loads w url key ->
      client_error w url key = None ->
      query_layer w 0 (client_of url key) QueryTables.page_views_query = inl msg ->
      demo_shape w
        (Raise (LibraryError msg),
         [CreateClient url key;
          Execute (client_of url key) QueryTables.page_views_query])
  | DemoSecond url key rA msg :
      demo_loads w url key ->
      client_error w url key = None ->
      query_layer w 0 (client_of url key) QueryTables.page_views_query = inr rA ->
      query_layer w 1 (client_of url key) QueryTables.sentence_embeddings_query
      = inl msg ->
      demo_shape w
        (Raise (LibraryError msg),
         [CreateClient url key;
          Execute (client_of url key) QueryTables.page_views_query;
          Print (page_views_line (length (data rA)));
          Execute (client_of url key) QueryTables.sentence_embeddings_query])
  | DemoDone url key rA rB :
      demo_loads w url key ->
      client_error w url key = None ->
      query_layer w 0 (client_of url key) QueryTables.page_views_query = inr rA ->
      query_layer w 1 (client_of url key) QueryTables.sentence_embeddings_query
      = inr rB ->
      demo_shape w
        (Return tt,
         [CreateClient url key;
          Execute (client_of url key) QueryTables.page_views_query;
          Print (page_views_line (length (data rA)));
          Execute (client_of url key) QueryTables.sentence_embeddings_query;
          Print (sentence_embeddings_line (length (data rB)))]).

(** * Checks of the string helpers *)

Example utf8_check : utf8 "✅ ok" = [9989; 32; 111; 107]%N.
Proof. reflexivity. Qed.

Example utf8_lock : utf8 "🔒" = [128274]%N.
Proof. reflexivity. Qed.

Example str_int_500 : str_int 500 = utf8 "500".
Proof. reflexivity. Qed.

Example str_int_neg : str_int (-12) = utf8 "-12".
Proof. reflexivity. Qed.


(** The proofs below never look inside a literal. *)
#[global] Opaque utf8 str_int AddQuestionCache.schema_sql.

(** * Properties *)

Section Traces.

Lemma queries_app (t u : trace) : queries (t ++ u) = (queries t + queries u)%nat.
Proof. unfold queries. by rewrite List.filter_app, List.length_app. Qed.

Lemma posts_app (t u : trace) : posts (t ++ u) = (posts t + posts u)%nat.
Proof. unfold posts. by rewrite List.filter_app, List.length_app. Qed.

Lemma sleeps_app (t u : trace) : sleeps (t ++ u) = (sleeps t + sleeps u)%nat.
Proof. unfold sleeps. by rewrite List.filter_app, List.length_app. Qed.

Lemma network_calls_app (t u : trace) :
  network_calls (t ++ u) = (network_calls t + network_calls u)%nat.
Proof. unfold network_calls. by rewrite List.filter_app, List.length_app. Qed.

Lemma slept_app (t u : trace) : slept (t ++ u) = slept t + slept u.
Proof.
  induction t as [|e t IH]; [done|].
  cbn [app slept foldr] in *. destruct e; fold (slept (t ++ u)); fold (slept t); lia.
Qed.

Lemma queries_retry_rounds c i k : queries (retry_rounds c i k) = k.
Proof.
  revert i; induction k as [|k IH]; intros i; [done|].
  cbn [retry_rounds]. rewrite queries_app, IH. done.
Qed.

Lemma posts_retry_rounds c i k : posts (retry_rounds c i k) = 0%nat.
Proof.
  revert i; induction k as [|k IH]; intros i; [done|].
  cbn [retry_rounds]. rewrite posts_app, IH. done.
Qed.

Lemma sleeps_retry_rounds c i k : sleeps (retry_rounds c i k) = k.
Proof.
  revert i; induction k as [|k IH]; intros i; [done|].
  cbn [retry_rounds]. rewrite sleeps_app, IH. done.
Qed.

Lemma slept_retry_rounds c i k : slept (retry_rounds c i k) = 3 * Z.of_nat k.
Proof.
  revert i; induction k as [|k IH]; intros i; [done|].
  cbn [retry_rounds]. rewrite slept_app, IH.
  change (slept (retry_round c i)) with 3. lia.
Qed.

End Traces.

(** ** One attempt *)

Section Attempt.

Variables (w : world) (c : client).

(** Unfolds the computation up to the next oracle call. *)
Ltac steps :=
  cbv [verify_attempt try_except bind ret raise emit print time_sleep execute
       requests_post create_client sys_exit load_json subscript].

Lemma verify_attempt_returns (a : Z) (t : trace) (r : api_response) :
  read_returns w c (queries t) r ->
  verify_attempt c a w t = (Return (Some true), t ++ verified_tail c r).
Proof.
  unfold read_returns. intros Hq. steps. rewrite Hq.
  by rewrite <- app_assoc.
Qed.

Lemma verify_attempt_retries (a : Z) (t : trace) :
  read_fails w c (queries t) -> a < 4 ->
  verify_attempt c a w t = (Return None, t ++ [Execute c verify_query;
                                               Print (waiting_line a); Sleep 3]).
Proof.
  intros [msg Hq] Ha. steps. rewrite Hq.
  apply Z.ltb_lt in Ha. rewrite Ha.
  by rewrite <- !app_assoc.
Qed.

Lemma verify_attempt_gives_up (a : Z) (t : trace) (msg : pystr) :
  query_layer w (queries t) c verify_query = inl msg -> 4 <= a ->
  verify_attempt c a w t = (Return (Some true), t ++ warning_tail c msg).
Proof.
  intros Hq Ha. steps. rewrite Hq.
  apply Z.ltb_ge in Ha. rewrite Ha.
  by rewrite <- !app_assoc.
Qed.

(** ** The retry loop *)

(** [k] failing attempts that are not the last one: the loop moves on to the
    attempt after them, having made [k] rounds. *)
Lemma for_in_retries (k : nat) : forall (i n : nat) (t : trace),
  (i + k <= 4)%nat ->
  (forall j, (j < k)%nat -> read_fails w c (queries t + j)) ->
  for_in (seqZ (Z.of_nat i) (Z.of_nat (k + n))) (verify_attempt c) w t
  = for_in (seqZ (Z.of_nat (i + k)) (Z.of_nat n)) (verify_attempt c) w
      (t ++ retry_rounds c i k).
Proof.
  induction k as [|k IH]; intros i n t Hik Hfail.
  - cbn [retry_rounds]. by rewrite Nat.add_0_r, app_nil_r.
  - rewrite seqZ_cons by lia. cbn [for_in]. unfold bind at 1.
    rewrite verify_attempt_retries; [|by rewrite <- (Nat.add_0_r (queries t)); apply Hfail; lia|lia].
    replace (Z.succ (Z.of_nat i)) with (Z.of_nat (S i)) by lia.
    replace (Z.pred (Z.of_nat (S k + n))) with (Z.of_nat (k + n)) by lia.
    rewrite IH; [|lia|].
    + cbn [retry_rounds]. unfold retry_round.
      rewrite <- app_assoc. by replace (S i + k)%nat with (i + S k)%nat by lia.
    + intros j Hj. rewrite queries_app.
      replace (queries t + queries _ + j)%nat with (queries t + S j)%nat
        by (cbn; lia).
      apply Hfail. lia.
Qed.

(** The first read that returns ends the loop at once. *)
Lemma verification_loop_returns (k : nat) (t : trace) (r : api_response) :
  (k < 5)%nat ->
  (forall j, (j < k)%nat -> read_fails w c (queries t + j)) ->
  read_returns w c (queries t + k) r ->
  verification_loop c w t
  = (Return (Some true), t ++ retry_rounds c 0 k ++ verified_tail c r).
Proof.
  intros Hk Hfail Hret. unfold verification_loop, range.
  change 5 with (Z.of_nat 5).
  replace 5%nat with (k + S (4 - k))%nat at 1 by lia.
  change 0 with (Z.of_nat 0).
  rewrite for_in_retries by (done || lia).
  rewrite seqZ_cons by lia. cbn [for_in]. unfold bind at 1.
  rewrite (verify_attempt_returns _ _ r).
  - by rewrite <- app_assoc.
  - by rewrite queries_app, queries_retry_rounds.
Qed.

(** Five failing reads end in the soft warning. *)
Lemma verification_loop_gives_up (t : trace) (msg : pystr) :
  (forall j, (j < 4)%nat -> read_fails w c (queries t + j)) ->
  query_layer w (queries t + 4) c verify_query = inl msg ->
  verification_loop c w t
  = (Return (Some true), t ++ retry_rounds c 0 4 ++ warning_tail c msg).
Proof.
  intros Hfail Hlast. unfold verification_loop, range.
  change 5 with (Z.of_nat (4 + 1)). change 0 with (Z.of_nat 0).
  rewrite for_in_retries by (done || lia).
  rewrite seqZ_cons by lia. cbn [for_in]. unfold bind at 1.
  rewrite (verify_attempt_gives_up _ _ msg).
  - by rewrite <- app_assoc.
  - by rewrite queries_app, queries_retry_rounds.
  - lia.
Qed.

End Attempt.

(** ** Every run of the retry loop *)

Section Loop.

Variables (w : world) (c : client).

(** Among the first [n] reads, either all raise or there is a first one
    that returns. *)
Lemma first_return (base n : nat) :
  (forall j, (j < n)%nat -> read_fails w c (base + j)) \/
  (exists k r, (k < n)%nat /\
     (forall j, (j < k)%nat -> read_fails w c (base + j)) /\
     read_returns w c (base + k) r).
Proof.
  induction n as [|n [IH|(k & r & Hk & Hfail & Hret)]].
  - left. intros j Hj. lia.
  - destruct (query_layer w (base + n) c verify_query) as [msg|r] eqn:Hn.
    + left. intros j Hj. destruct (decide (j = n)) as [->|Hne].
      * by exists msg.
      * apply IH. lia.
    + right. exists n, r. split; [lia|]. split; [|done].
      intros j Hj. by apply IH.
  - right. exists k, r. split; [lia|done].
Qed.

(** The loop always returns [True]; what it did is [k <= 4] retry rounds
    and one ending. *)
Lemma verification_loop_total (t : trace) :
  exists k tail,
    verification_loop c w t
    = (Return (Some true), t ++ retry_rounds c 0 k ++ tail) /\
    ending c k tail /\
    (forall j, (j < k)%nat -> read_fails w c (queries t + j)).
Proof.
  destruct (first_return (queries t) 5) as [Hall|(k & r & Hk & Hfail & Hret)].
  - destruct (Hall 4%nat) as [msg Hmsg]; [lia|].
    exists 4%nat, (warning_tail c msg). split; [|split].
    + apply verification_loop_gives_up; [|done]. intros j Hj. apply Hall. lia.
    + apply Warned.
    + intros j Hj. apply Hall. lia.
  - exists k, (verified_tail c r). split; [|split; [|done]].
    + by apply verification_loop_returns.
    + apply Verified. lia.
Qed.

Lemma ending_counts k tail :
  ending c k tail ->
  queries tail = 1%nat /\ posts tail = 0%nat /\ sleeps tail = 0%nat /\ slept tail = 0.
Proof. by intros []. Qed.

End Loop.

(** ** The function and the script *)

Section Script.

Variables (w : world) (g : config).

Ltac steps :=
  cbv [create_question_cache_table main script try_except bind ret raise emit
       print time_sleep execute requests_post create_client sys_exit
       truthy negb].

Lemma submission_rejected (t : trace) (resp : http_response) :
  http_post w (migration_request g) = inr resp ->
  accepted resp = false ->
  create_question_cache_table g w t
  = (Return (Some false),
     t ++ submission g ++ [Print (failed_line (status_code resp));
                           Print (slice_to 500 (text resp))]).
Proof.
  intros Hpost Hacc. steps. rewrite Hpost, Hacc.
  by rewrite <- !app_assoc.
Qed.

Lemma submission_accepted (t : trace) (resp : http_response) :
  http_post w (migration_request g) = inr resp ->
  accepted resp = true ->
  client_error w (SUPABASE_URL g) (SUPABASE_SERVICE_KEY g) = None ->
  create_question_cache_table g w t
  = verification_loop (service_client g) w (t ++ submission g ++ handover g).
Proof.
  intros Hpost Hacc Hcl. steps. rewrite Hpost, Hacc, Hcl.
  by rewrite <- !app_assoc.
Qed.

Lemma submission_raises (t : trace) (msg : pystr) :
  http_post w (migration_request g) = inl msg ->
  create_question_cache_table g w t
  = (Raise (LibraryError msg), t ++ submission g).
Proof.
  intros Hpost. steps. rewrite Hpost.
  by rewrite <- !app_assoc.
Qed.

Lemma client_raises (t : trace) (resp : http_response) (msg : pystr) :
  http_post w (migration_request g) = inr resp ->
  accepted resp = true ->
  client_error w (SUPABASE_URL g) (SUPABASE_SERVICE_KEY g) = Some msg ->
  create_question_cache_table g w t
  = (Raise (LibraryError msg), t ++ submission g ++ handover g).
Proof.
  intros Hpost Hacc Hcl. steps. rewrite Hpost, Hacc, Hcl.
  by rewrite <- !app_assoc.
Qed.

Lemma main_after_true (t t' : trace) :
  create_question_cache_table g w t = (Return (Some true), t') ->
  main g w t = (Return tt, t' ++ closing).
Proof.
  intros H. unfold main, bind at 1. rewrite H. steps.
  by rewrite <- !app_assoc.
Qed.

Lemma main_after_false (t t' : trace) :
  create_question_cache_table g w t = (Return (Some false), t') ->
  main g w t = (Exit 1, t').
Proof. intros H. unfold main, bind at 1. by rewrite H. Qed.

Lemma main_after_raise (t t' : trace) (e : exn) :
  create_question_cache_table g w t = (Raise e, t') ->
  main g w t = (Raise e, t').
Proof. intros H. unfold main, bind at 1. by rewrite H. Qed.

Lemma load_config_loads (t : trace) :
  loads w g -> load_config w t = (Return g, t).
Proof.
  intros (pub & sec & Hpub & Hsec & Hurl & Hkey & Htok & Href).
  cbv [load_config bind load_json subscript ret raise].
  rewrite Hpub, Hsec, Hurl, Hkey, Htok, Href. by destruct g.
Qed.

Lemma script_loaded :
  loads w g -> run script w = main g w [].
Proof.
  intros H. unfold run, script, bind at 1. by rewrite (load_config_loads [] H).
Qed.

End Script.

Lemma accepted_spec (resp : http_response) :
  accepted resp = true <-> status_code resp = 200 \/ status_code resp = 201.
Proof. unfold accepted. rewrite orb_true_iff, !Z.eqb_eq. done. Qed.

(** Loading the configuration touches nothing but the two files: it binds
    the four names, or raises and leaves the trace as it was. *)
Lemma load_config_pure (w : world) (t : trace) :
  (exists g, loads w g /\ load_config w t = (Return g, t)) \/
  (exists e, load_config w t = (Raise e, t) /\ is_config_error e = true /\
             forall g, ~ loads w g).
Proof.
  cbv [load_config bind load_json subscript ret raise].
  destruct (fs w "config.public.json") as [| |?|[pub|?]] eqn:Hpub;
    try (right; eexists; split; [done|split; [done|]];
         intros ? (? & ? & ? & ?); congruence).
  all: destruct (fs w "config.secret.json") as [| |?|[sec|?]] eqn:Hsec;
    try (right; eexists; split; [done|split; [done|]];
         intros ? (? & ? & ? & ? & ?); congruence).
  all: try (destruct (pub !! "SUPABASE_URL") as [url|] eqn:Hurl;
    [|right; eexists; split; [done|split; [done|]];
      intros ? (? & ? & ? & ? & ? & ?); congruence]).
  all: try (right; eexists; split; [done|split; [done|]];
            intros ? (? & ? & ? & ? & ?); congruence).
  destruct (sec !! "SUPABASE_SERVICE_KEY") as [key|] eqn:Hkey;
    [|right; eexists; split; [done|split; [done|]];
      intros ? (? & ? & ? & ? & ? & ? & ?); congruence].
  destruct (sec !! "SUPABASE_ACCESS_TOKEN") as [tok|] eqn:Htok;
    [|right; eexists; split; [done|split; [done|]];
      intros ? (? & ? & ? & ? & ? & ? & ? & ?); congruence].
  destruct (sec !! "SUPABASE_PROJECT_REF") as [ref|] eqn:Href;
    [|right; eexists; split; [done|split; [done|]];
      intros ? (? & ? & ? & ? & ? & ? & ? & ?); congruence].
  left. eexists. split; [|done].
  exists pub, sec. done.
Qed.

Lemma queries_submission g : queries (submission g) = 0%nat.
Proof. done. Qed.

Lemma queries_handover g : queries (handover g) = 0%nat.
Proof. done. Qed.

Lemma run_cases (w : world) (g : config) :
  loads w g -> run_shape w g (run script w).
Proof.
  intros Hload. rewrite (script_loaded w g Hload).
  destruct (http_post w (migration_request g)) as [msg|resp] eqn:Hpost.
  - rewrite (main_after_raise w g [] _ _ (submission_raises w g [] msg Hpost)).
    by apply PostRaised.
  - destruct (accepted resp) eqn:Hacc.
    + destruct (client_error w (SUPABASE_URL g) (SUPABASE_SERVICE_KEY g))
        as [msg|] eqn:Hcl.
      * rewrite (main_after_raise w g [] _ _
                   (client_raises w g [] resp msg Hpost Hacc Hcl)).
        by apply (ClientRaised w g resp).
      * destruct (verification_loop_total w (service_client g)
                    ([] ++ submission g ++ handover g))
          as (k & tail & Hloop & Hend & Hfail).
        rewrite (main_after_true w g [] (submission g ++ handover g
                   ++ retry_rounds (service_client g) 0 k ++ tail)).
        -- rewrite <- !app_assoc. by apply (Verification w g resp).
        -- rewrite (submission_accepted w g [] resp Hpost Hacc Hcl), Hloop.
           by rewrite <- !app_assoc.
    + rewrite (main_after_false w g [] _
                 (submission_rejected w g [] resp Hpost Hacc)).
      by apply Rejected.
Qed.

(** * The claims *)

Lemma reaches_verification_loop w g resp :
  reaches_verification w g resp ->
  create_question_cache_table g w []
  = verification_loop (service_client g) w (submission g ++ handover g).
Proof.
  intros [Hload Hpost Hst Hcl].
  apply (submission_accepted w g [] resp Hpost); [|done].
  by apply accepted_spec.
Qed.

(** C1.  When the migration is accepted (200 or 201) and each of the five
    verification reads raises, [create_question_cache_table] returns [True]
    after printing the soft warning, and the script exits with code 0. *)
Theorem soft_warning_reports_success (w : world) (g : config) (resp : http_response) :
  reaches_verification w g resp ->
  (forall n, (n < 5)%nat -> read_fails w (service_client g) n) ->
  exists msg,
    query_layer w 4 (service_client g) verify_query = inl msg /\
    create_question_cache_table g w []
    = (Return (Some true),
       submission g ++ handover g
       ++ retry_rounds (service_client g) 0 4
       ++ warning_tail (service_client g) msg) /\
    queries (snd (run script w)) = 5%nat /\
    fst (run script w) = Return tt /\
    exit_code (fst (run script w)) = 0.
Proof.
  intros Hrv Hfail.
  destruct (Hfail 4%nat) as [msg Hmsg]; [lia|]. exists msg.
  assert (Hf : create_question_cache_table g w []
    = (Return (Some true),
       submission g ++ handover g
       ++ retry_rounds (service_client g) 0 4
       ++ warning_tail (service_client g) msg)).
  { rewrite (reaches_verification_loop w g resp Hrv).
    rewrite (verification_loop_gives_up w (service_client g) _ msg).
    - by rewrite <- !app_assoc.
    - intros j Hj. apply (Hfail j). lia.
    - exact Hmsg. }
  rewrite (script_loaded w g (rv_loads _ _ _ Hrv)).
  rewrite (main_after_true w g [] _ Hf).
  repeat split; try done.
Qed.

(** C4.  When the verification read raises on attempts 1 to 4 and returns
    on attempt 5, the run reports success and sleeps four times, 12
    time-units in all. *)
Theorem fifth_attempt_success_sleeps_12 (w : world) (g : config)
    (resp : http_response) (r : api_response) :
  reaches_verification w g resp ->
  (forall n, (n < 4)%nat -> read_fails w (service_client g) n) ->
  read_returns w (service_client g) 4 r ->
  fst (create_question_cache_table g w []) = Return (Some true) /\
  run script w
  = (Return tt,
     submission g ++ handover g
     ++ retry_rounds (service_client g) 0 4
     ++ verified_tail (service_client g) r ++ closing) /\
  exit_code (fst (run script w)) = 0 /\
  sleeps (snd (run script w)) = 4%nat /\
  slept (snd (run script w)) = 12.
Proof.
  intros Hrv Hfail Hret.
  assert (Hf : create_question_cache_table g w []
    = (Return (Some true),
       submission g ++ handover g
       ++ retry_rounds (service_client g) 0 4
       ++ verified_tail (service_client g) r)).
  { rewrite (reaches_verification_loop w g resp Hrv).
    rewrite (verification_loop_returns w (service_client g) 4 _ r);
      [by rewrite <- !app_assoc|lia| |exact Hret].
    intros j Hj. apply (Hfail j). lia. }
  rewrite (script_loaded w g (rv_loads _ _ _ Hrv)).
  rewrite (main_after_true w g [] _ Hf), Hf.
  rewrite <- !app_assoc.
  repeat split; try done.
Qed.

(** C3.  When the endpoint answers with a status other than 200 and 201,
    [create_question_cache_table] returns [False] without creating the
    query client or issuing any read, and the script exits with code 1. *)
Theorem rejection_skips_verification (w : world) (g : config) (resp : http_response) :
  loads w g ->
  http_post w (migration_request g) = inr resp ->
  status_code resp <> 200 ->
  status_code resp <> 201 ->
  fst (create_question_cache_table g w []) = Return (Some false) /\
  Forall (fun e => is_execute e = false /\ is_create_client e = false)
         (snd (create_question_cache_table g w [])) /\
  Forall (fun e => is_execute e = false /\ is_create_client e = false)
         (snd (run script w)) /\
  queries (snd (run script w)) = 0%nat /\
  exit_code (fst (run script w)) = 1.
Proof.
  intros Hload Hpost H200 H201.
  assert (Hacc : accepted resp = false).
  { destruct (accepted resp) eqn:E; [|done].
    apply accepted_spec in E. lia. }
  pose proof (submission_rejected w g [] resp Hpost Hacc) as Hf.
  rewrite (script_loaded w g Hload), (main_after_false w g [] _ Hf), Hf.
  cbn [fst snd app]. repeat split; try done.
  all: unfold submission; repeat constructor.
Qed.

(** C2.  Whatever the endpoint answers: on 200 or 201 the submitter prints
    the success line and goes on to the verification (it does not return
    [False]); on any other status it prints the failure line with that
    status code and the first 500 characters of the body, returns [False],
    and the script exits with code 1. *)
Theorem status_decides_submission (w : world) (g : config) (resp : http_response) :
  loads w g ->
  http_post w (migration_request g) = inr resp ->
  (status_code resp = 200 \/ status_code resp = 201 ->
   (exists rest,
      snd (create_question_cache_table g w [])
      = submission g ++ Print created_line :: rest) /\
   fst (create_question_cache_table g w []) <> Return (Some false) /\
   fst (run script w) <> Exit 1) /\
  (status_code resp <> 200 -> status_code resp <> 201 ->
   create_question_cache_table g w []
   = (Return (Some false),
      submission g ++ [Print (failed_line (status_code resp));
                       Print (slice_to 500 (text resp))]) /\
   (length (slice_to 500 (text resp)) <= 500)%nat /\
   slice_to 500 (text resp) `prefix_of` text resp /\
   (length (text resp) <= 500 -> slice_to 500 (text resp) = text resp)%nat /\
   run script w
   = (Exit 1, submission g ++ [Print (failed_line (status_code resp));
                               Print (slice_to 500 (text resp))]) /\
   exit_code (fst (run script w)) = 1).
Proof.
  intros Hload Hpost. split.
  - intros Hst. apply accepted_spec in Hst.
    rewrite (script_loaded w g Hload) in *.
    destruct (client_error w (SUPABASE_URL g) (SUPABASE_SERVICE_KEY g))
      as [msg|] eqn:Hcl.
    + rewrite (main_after_raise w g [] _ _
                 (client_raises w g [] resp msg Hpost Hst Hcl)).
      rewrite (client_raises w g [] resp msg Hpost Hst Hcl).
      cbn [fst snd app]. split; [by eexists|done].
    + destruct (verification_loop_total w (service_client g)
                  ([] ++ submission g ++ handover g))
        as (k & tail & Hloop & _ & _).
      pose proof (submission_accepted w g [] resp Hpost Hst Hcl) as Hf.
      rewrite Hloop in Hf.
      rewrite (main_after_true w g [] _ Hf), Hf.
      cbn [fst snd app]. split; [by eexists|done].
  - intros H200 H201.
    assert (Hacc : accepted resp = false).
    { destruct (accepted resp) eqn:E; [|done].
      apply accepted_spec in E. lia. }
    pose proof (submission_rejected w g [] resp Hpost Hacc) as Hf.
    rewrite (script_loaded w g Hload), (main_after_false w g [] _ Hf), Hf.
    unfold slice_to. repeat split; try done.
    + rewrite length_take. lia.
    + apply prefix_take.
    + intros Hlen. by apply take_ge.
Qed.

(** Membership in a trace that is written out: try each event in turn. *)
Ltac in_listed H :=
  repeat (apply elem_of_cons in H as [H|H]; [by simplify_eq|]);
  by apply elem_of_nil in H.

Lemma executes_of_rounds c i k c' q :
  Execute c' q ∈ retry_rounds c i k -> c' = c /\ q = verify_query.
Proof.
  revert i. induction k as [|k IH]; intros i; cbn [retry_rounds].
  - by intros ?%elem_of_nil.
  - unfold retry_round. cbn [app]. rewrite !elem_of_cons.
    intros [?|[?|[?|?]]]; simplify_eq; eauto.
Qed.

Lemma executes_of_ending c k tail c' q :
  ending c k tail -> Execute c' q ∈ tail -> c' = c /\ q = verify_query.
Proof.
  intros [] Hin; unfold verified_tail, warning_tail in Hin;
    repeat (apply elem_of_cons in Hin as [Hin|Hin]; [simplify_eq; by split|]);
    by apply elem_of_nil in Hin.
Qed.

Lemma or_zero_default (c : option Z) : or_zero c = default 0 c.
Proof.
  destruct c as [n|]; [|done]. cbn.
  destruct (Z.eqb_spec n 0); by subst.
Qed.

(** C5.  Every read the verifier issues is the minimal query of the
    contract (column [id], exact count, limit 1, on [question_cache]) made
    with the client that holds the service key; and the first read that
    raises nothing ends the function at once: it prints the count it saw and
    returns [True], with no further read. *)
Theorem minimal_read_until_first_success (w : world) (g : config) :
  loads w g ->
  (q_table verify_query = "question_cache" /\
   q_columns verify_query = ["id"] /\
   q_count verify_query = Some Exact /\
   q_limit verify_query = Some 1) /\
  (forall c q, Execute c q ∈ snd (run script w) ->
     q = verify_query /\
     client_key c = SUPABASE_SERVICE_KEY g /\
     client_url c = SUPABASE_URL g) /\
  (forall resp k r,
     reaches_verification w g resp ->
     (k < 5)%nat ->
     (forall j, (j < k)%nat -> read_fails w (service_client g) j) ->
     read_returns w (service_client g) k r ->
     create_question_cache_table g w []
     = (Return (Some true),
        submission g ++ handover g
        ++ retry_rounds (service_client g) 0 k
        ++ [Execute (service_client g) verify_query;
            Print (verified_line (default 0 (count r)))]) /\
     queries (snd (create_question_cache_table g w [])) = S k /\
     queries (snd (run script w)) = S k).
Proof.
  intros Hload. split; [done|]. split.
  - intros c q Hin.
    assert (c = service_client g /\ q = verify_query) as [-> ->]; [|done].
    destruct (run_cases w g Hload) as [msg|resp|resp msg|resp k tail ? ? Hend ?];
      cbn [snd] in Hin.
    + unfold submission in Hin. in_listed Hin.
    + unfold submission in Hin. cbn [app] in Hin.
      in_listed Hin.
    + unfold submission, handover in Hin. cbn [app] in Hin.
      in_listed Hin.
    + rewrite !elem_of_app in Hin.
      destruct Hin as [Hin|[Hin|[Hin|[Hin|Hin]]]].
      * unfold submission in Hin. in_listed Hin.
      * unfold handover in Hin. in_listed Hin.
      * by apply executes_of_rounds in Hin.
      * by apply (executes_of_ending _ _ _ _ _ Hend) in Hin.
      * unfold closing in Hin. in_listed Hin.
  - intros resp k r Hrv Hk Hfail Hret.
    assert (Hf : create_question_cache_table g w []
      = (Return (Some true),
         submission g ++ handover g
         ++ retry_rounds (service_client g) 0 k
         ++ verified_tail (service_client g) r)).
    { rewrite (reaches_verification_loop w g resp Hrv).
      rewrite (verification_loop_returns w (service_client g) k _ r);
        [by rewrite <- !app_assoc|lia| |exact Hret].
      intros j Hj. apply (Hfail j). lia. }
    rewrite (script_loaded w g Hload), (main_after_true w g [] _ Hf), Hf.
    unfold verified_tail. rewrite or_zero_default. cbn [snd].
    split; [done|].
    rewrite !queries_app, queries_retry_rounds, queries_submission, queries_handover.
    change (queries closing) with 0%nat.
    change (queries [_; _]) with 1%nat. lia.
Qed.

(** C9.  A verification read that returns is reported with the count it
    carries, and with 0 when the count is [None]; the attempt returns
    [True] either way and the printed figure is always an integer. *)
Theorem missing_count_reads_as_zero (w : world) (c : client) (attempt : Z)
    (t : trace) (r : api_response) :
  read_returns w c (queries t) r ->
  verify_attempt c attempt w t
  = (Return (Some true),
     t ++ [Execute c verify_query;
           Print (utf8 "✅ Table verified! Current cached questions: "
                  ++ str_int (or_zero (count r)))]) /\
  or_zero (count r) = match count r with Some n => n | None => 0 end.
Proof.
  intros Hret. split.
  - by rewrite (verify_attempt_returns w c attempt t r Hret).
  - by rewrite or_zero_default.
Qed.

Lemma script_not_loaded (w : world) (e : exn) :
  load_config w [] = (Raise e, []) -> run script w = (Raise e, []).
Proof. intros H. unfold run, script, bind. by rewrite H. Qed.

(** C7.  No run of the script submits the migration more than once: the
    trace of every world holds at most one POST, and it is the migration
    request. *)
Theorem migration_posted_at_most_once (w : world) :
  (posts (snd (run script w)) <= 1)%nat /\
  forall req, Post req ∈ snd (run script w) ->
    exists g, loads w g /\ req = migration_request g.
Proof.
  destruct (load_config_pure w []) as [(g & Hload & _)|(e & He & _)].
  - assert (Hsub : forall req, Post req ∈ submission g -> req = migration_request g).
    { intros req Hin. unfold submission in Hin. in_listed Hin. }
    destruct (run_cases w g Hload) as [msg|resp|resp msg|resp k tail ? ? Hend ?];
      cbn [snd].
    + split; [done|]. intros req Hin. exists g. auto.
    + split; [done|]. intros req Hin. exists g. split; [done|].
      apply elem_of_app in Hin as [Hin|Hin]; [auto|].
      in_listed Hin.
    + split; [done|]. intros req Hin. exists g. split; [done|].
      apply elem_of_app in Hin as [Hin|Hin]; [auto|].
      unfold handover in Hin. in_listed Hin.
    + destruct (ending_counts _ _ _ Hend) as (_ & Hp & _).
      split.
      * rewrite !posts_app, posts_retry_rounds, Hp.
        change (posts (submission g)) with 1%nat.
        change (posts (handover g)) with 0%nat.
        change (posts closing) with 0%nat. lia.
      * intros req Hin. exists g. split; [done|].
        rewrite !elem_of_app in Hin.
        destruct Hin as [Hin|[Hin|[Hin|[Hin|Hin]]]]; [auto|..].
        -- unfold handover in Hin. in_listed Hin.
        -- exfalso. clear -Hin. revert Hin. generalize 0%nat.
           induction k as [|k IH]; intros i; cbn [retry_rounds].
           ++ by intros ?%elem_of_nil.
           ++ unfold retry_round. cbn [app]. rewrite !elem_of_cons.
              intros [?|[?|[?|?]]]; simplify_eq; eauto.
        -- exfalso. destruct Hend; unfold verified_tail, warning_tail in Hin;
             in_listed Hin.
        -- unfold closing in Hin. in_listed Hin.
  - rewrite (script_not_loaded w e He). cbn [snd]. split; [cbn; lia|].
    by intros req ?%elem_of_nil.
Qed.

(** C6, as stated, fails: the public file of [Samples.no_anon_key_world] lacks a
    credential the specification requires, yet the script loads its
    configuration, makes two network calls and exits with code 0. *)
Lemma missing_anon_key_is_not_fatal :
  ~ spec_config_complete Samples.no_anon_key_world /\
  fst (run script Samples.no_anon_key_world) = Return tt /\
  exit_code (fst (run script Samples.no_anon_key_world)) = 0 /\
  network_calls (snd (run script Samples.no_anon_key_world)) = 2%nat.
Proof.
  split.
  - intros (pub & sec & Hpub & _ & _ & Hanon & _).
    vm_compute in Hpub. injection Hpub as <-.
    vm_compute in Hanon. by destruct Hanon.
  - by vm_compute.
Qed.

(** C6, amended.  When either file is absent, unreadable, not JSON or not
    an object, or lacks one of the four fields the script reads (service
    URL, service key, access token, project identifier), the script ends in
    an uncaught exception of the configuration load, with exit code 1,
    before anything is printed and before any network call. *)
Theorem incomplete_config_aborts_before_network (w : world) :
  ~ (exists g, loads w g) ->
  exists e,
    run script w = (Raise e, []) /\
    is_config_error e = true /\
    exit_code (fst (run script w)) = 1 /\
    network_calls (snd (run script w)) = 0%nat.
Proof.
  intros Hno.
  destruct (load_config_pure w []) as [(g & Hload & _)|(e & He & Hcls & _)].
  - destruct Hno. by exists g.
  - exists e. by rewrite (script_not_loaded w e He).
Qed.

Lemma ending_le c k tail : ending c k tail -> (k <= 4)%nat.
Proof. intros []; lia. Qed.

(** Where a sleep can stand in [k] retry rounds followed by an ending. *)
Lemma sleep_in_rounds c tail :
  sleeps tail = 0%nat -> queries tail = 1%nat ->
  forall k i a s b,
    retry_rounds c i k ++ tail = a ++ Sleep s :: b ->
    s = 3 /\ (1 <= queries a <= k)%nat /\ (1 <= queries b)%nat.
Proof.
  intros Hs Hq. induction k as [|k IH]; intros i a s b Heq.
  - cbn [retry_rounds app] in Heq. rewrite Heq, sleeps_app in Hs.
    cbn in Hs. lia.
  - cbn [retry_rounds retry_round app] in Heq.
    destruct a as [|e1 [|e2 [|e3 a]]]; cbn [app] in Heq;
      [discriminate|discriminate|simplify_eq|injection Heq as <- <- <- Heq].
    + rewrite queries_app, queries_retry_rounds, Hq. cbn. lia.
    + destruct (IH _ _ _ _ Heq) as (-> & Ha & Hb).
      split; [done|]. split; [|done].
      change (queries (_ :: _ :: _ :: a)) with (S (queries a)). lia.
Qed.

(** C10.  Every run of the retry loop returns [True] after at most five
    reads and at most four sleeps of 3 time-units each (at most 12 in all);
    each sleep follows a read that raised and that was not the fifth, and is
    followed by another read. *)
Theorem sleeps_only_between_attempts (w : world) (c : client) (t : trace) :
  exists t',
    verification_loop c w t = (Return (Some true), t ++ t') /\
    (1 <= queries t' <= 5)%nat /\
    (sleeps t' <= 4)%nat /\
    slept t' = 3 * Z.of_nat (sleeps t') /\
    slept t' <= 12 /\
    forall a s b,
      t' = a ++ Sleep s :: b ->
      s = 3 /\
      (1 <= queries a <= 4)%nat /\
      read_fails w c (queries t + (queries a - 1)) /\
      (1 <= queries b)%nat.
Proof.
  destruct (verification_loop_total w c t) as (k & tail & Hloop & Hend & Hfail).
  pose proof (ending_le _ _ _ Hend) as Hk.
  destruct (ending_counts _ _ _ Hend) as (Hq & _ & Hs & Hz).
  exists (retry_rounds c 0 k ++ tail). split; [done|].
  rewrite queries_app, sleeps_app, slept_app,
    queries_retry_rounds, sleeps_retry_rounds, slept_retry_rounds, Hq, Hs, Hz.
  split; [lia|]. split; [lia|]. split; [lia|]. split; [lia|].
  intros a s b Heq.
  destruct (sleep_in_rounds c tail Hs Hq _ _ _ _ _ Heq) as (Hs3 & Ha & Hb).
  split; [done|]. split; [lia|]. split; [|done].
  apply Hfail. lia.
Qed.

(** C8.  The smoke-query demo creates its client with the anonymous key,
    reads [page_views] and [sentence_embeddings] with limit 5 each, and
    prints the number of rows of each answer; on five rows and no rows it
    prints 5 and 0, and ends without an exception. *)
Theorem smoke_query_prints_row_counts (w : world) (pub : gmap string pyval)
    (url key : pyval) (rA rB : api_response) :
  fs w "config.public.json" = Json (JObject pub) ->
  pub !! "SUPABASE_URL" = Some url ->
  pub !! "SUPABASE_ANON_KEY" = Some key ->
  client_error w url key = None ->
  query_layer w 0 (client_of url key) QueryTables.page_views_query = inr rA ->
  query_layer w 1 (client_of url key) QueryTables.sentence_embeddings_query = inr rB ->
  (q_table QueryTables.page_views_query = "page_views" /\
   q_limit QueryTables.page_views_query = Some 5 /\
   q_table QueryTables.sentence_embeddings_query = "sentence_embeddings" /\
   q_limit QueryTables.sentence_embeddings_query = Some 5) /\
  run QueryTables.script w
  = (Return tt,
     [CreateClient url key;
      Execute (client_of url key) QueryTables.page_views_query;
      Print (utf8 "page_views: " ++ str_int (Z.of_nat (length (data rA)))
             ++ utf8 " rows ✅");
      Execute (client_of url key) QueryTables.sentence_embeddings_query;
      Print (utf8 "sentence_embeddings: " ++ str_int (Z.of_nat (length (data rB)))
             ++ utf8 " rows (expected: 0) 🔒")]) /\
  exit_code (fst (run QueryTables.script w)) = 0 /\
  (length (data rA) = 5%nat -> length (data rB) = 0%nat ->
   printed (snd (run QueryTables.script w))
   = [utf8 "page_views: 5 rows ✅";
      utf8 "sentence_embeddings: 0 rows (expected: 0) 🔒"]).
Proof.
  intros Hpub Hurl Hkey Hcl HA HB. split; [done|].
  assert (Hrun : run QueryTables.script w
    = (Return tt,
       [CreateClient url key;
        Execute (client_of url key) QueryTables.page_views_query;
        Print (utf8 "page_views: " ++ str_int (Z.of_nat (length (data rA)))
               ++ utf8 " rows ✅");
        Execute (client_of url key) QueryTables.sentence_embeddings_query;
        Print (utf8 "sentence_embeddings: " ++ str_int (Z.of_nat (length (data rB)))
               ++ utf8 " rows (expected: 0) 🔒")])).
  { cbv [run QueryTables.script bind load_json subscript ret raise create_client
         execute print emit QueryTables.len].
    rewrite Hpub, Hurl, Hkey, Hcl.
    change (queries ([] ++ [CreateClient url key])) with 0%nat.
    fold (client_of url key). rewrite HA.
    change (queries _) with 1%nat. rewrite HB. done. }
  rewrite Hrun. split; [done|]. split; [done|].
  intros -> ->. by vm_compute.
Qed.

(** * The claims on the sample worlds *)

Section Witnesses.

Import Samples.

Lemma sample_loads status body failures cnt :
  loads (migration_world full_disk status body failures cnt) cfg.
Proof. exists public_json, secret_json. vm_compute. tauto. Defined.

Lemma sample_reaches status failures cnt :
  status = 200 \/ status = 201 ->
  reaches_verification (migration_world full_disk status [] failures cnt) cfg
    {| status_code := status; text := [] |}.
Proof. intros H. split; [apply sample_loads|reflexivity|exact H|reflexivity]. Defined.

Lemma sample_fails status body failures cnt c n :
  (n < failures)%nat ->
  read_fails (migration_world full_disk status body failures cnt) c n.
Proof.
  intros Hn. exists schema_cache_stale. cbn [query_layer migration_world].
  apply Nat.ltb_lt in Hn. by rewrite Hn.
Defined.

Lemma soft_warning_reports_success_witness :
  reaches_verification never_visible cfg accepted_201 /\
  fst (create_question_cache_table cfg never_visible []) = Return (Some true) /\
  queries (snd (run script never_visible)) = 5%nat /\
  exit_code (fst (run script never_visible)) = 0.
Proof.
  assert (Hrv : reaches_verification never_visible cfg accepted_201)
    by (apply sample_reaches; lia).
  split; [exact Hrv|].
  destruct (soft_warning_reports_success never_visible cfg accepted_201 Hrv
              (fun n Hn => sample_fails 201 [] 5 None _ n Hn))
    as (msg & _ & Hf & Hq & _ & Hexit).
  split; [by rewrite Hf|]. split; [exact Hq|exact Hexit].
Defined.

Lemma fifth_attempt_success_sleeps_12_witness :
  reaches_verification visible_on_fifth cfg accepted_200 /\
  read_returns visible_on_fifth (service_client cfg) 4
    {| data := []; count := Some 7 |} /\
  fst (create_question_cache_table cfg visible_on_fifth []) = Return (Some true) /\
  exit_code (fst (run script visible_on_fifth)) = 0 /\
  sleeps (snd (run script visible_on_fifth)) = 4%nat /\
  slept (snd (run script visible_on_fifth)) = 12.
Proof.
  assert (Hrv : reaches_verification visible_on_fifth cfg accepted_200)
    by (apply sample_reaches; lia).
  split; [exact Hrv|]. split; [reflexivity|].
  destruct (fifth_attempt_success_sleeps_12 visible_on_fifth cfg accepted_200
              {| data := []; count := Some 7 |} Hrv
              (fun n Hn => sample_fails 200 [] 4 (Some 7) _ n Hn) eq_refl)
    as (Hf & _ & Hexit & Hs & Hz).
  split; [exact Hf|]. split; [exact Hexit|]. split; [exact Hs|exact Hz].
Defined.

Lemma rejection_skips_verification_witness :
  http_post server_error (migration_request cfg) = inr rejected_500 /\
  fst (create_question_cache_table cfg server_error []) = Return (Some false) /\
  queries (snd (run script server_error)) = 0%nat /\
  exit_code (fst (run script server_error)) = 1.
Proof.
  split; [reflexivity|].
  destruct (rejection_skips_verification server_error cfg rejected_500
              (sample_loads 500 long_body 0 None) eq_refl
              ltac:(cbn; lia) ltac:(cbn; lia))
    as (Hf & _ & _ & Hq & Hexit).
  split; [exact Hf|]. split; [exact Hq|exact Hexit].
Defined.

Lemma status_decides_submission_witness :
  http_post server_error (migration_request cfg) = inr rejected_500 /\
  create_question_cache_table cfg server_error []
  = (Return (Some false),
     submission cfg ++ [Print (failed_line 500); Print (replicate 500 120%N)]) /\
  exit_code (fst (run script server_error)) = 1.
Proof.
  split; [reflexivity|].
  destruct (status_decides_submission server_error cfg rejected_500
              (sample_loads 500 long_body 0 None) eq_refl)
    as [_ Hrej].
  destruct (Hrej ltac:(cbn; lia) ltac:(cbn; lia)) as (Hf & _ & _ & _ & _ & Hexit).
  split; [exact Hf|exact Hexit].
Defined.

Lemma minimal_read_until_first_success_witness :
  loads visible_on_third cfg /\
  read_returns visible_on_third (service_client cfg) 2
    {| data := []; count := Some 3 |} /\
  create_question_cache_table cfg visible_on_third []
  = (Return (Some true),
     submission cfg ++ handover cfg
     ++ retry_rounds (service_client cfg) 0 2
     ++ [Execute (service_client cfg) verify_query; Print (verified_line 3)]) /\
  queries (snd (run script visible_on_third)) = 3%nat.
Proof.
  split; [apply sample_loads|]. split; [reflexivity|].
  destruct (minimal_read_until_first_success visible_on_third cfg
              (sample_loads 200 [] 2 (Some 3))) as (_ & _ & Hfirst).
  destruct (Hfirst accepted_200 2%nat {| data := []; count := Some 3 |}
              (sample_reaches 200 2 (Some 3) (or_introl eq_refl))
              ltac:(lia)
              (fun n Hn => sample_fails 200 [] 2 (Some 3) _ n Hn) eq_refl)
    as (Hf & _ & Hq).
  split; [exact Hf|exact Hq].
Defined.

Lemma missing_count_reads_as_zero_witness :
  read_returns visible_at_once (service_client cfg) (queries [])
    {| data := []; count := None |} /\
  verify_attempt (service_client cfg) 0 visible_at_once []
  = (Return (Some true),
     [Execute (service_client cfg) verify_query;
      Print (utf8 "✅ Table verified! Current cached questions: " ++ str_int 0)]).
Proof.
  split; [reflexivity|].
  exact (proj1 (missing_count_reads_as_zero visible_at_once (service_client cfg) 0 []
                  {| data := []; count := None |} eq_refl)).
Defined.

Lemma incomplete_config_aborts_before_network_witness :
  ~ (exists g, loads no_secret_file g) /\
  run script no_secret_file = (Raise (FileNotFoundError "config.secret.json"), []) /\
  network_calls (snd (run script no_secret_file)) = 0%nat.
Proof.
  assert (Hno : ~ (exists g, loads no_secret_file g)).
  { intros (g & pub & sec & _ & Hsec & _). vm_compute in Hsec. discriminate. }
  split; [exact Hno|].
  destruct (incomplete_config_aborts_before_network no_secret_file Hno)
    as (e & Hrun & _ & _ & Hnet).
  split; [|exact Hnet].
  rewrite Hrun. f_equal. f_equal.
  assert (Hl : load_config no_secret_file []
               = (Raise (FileNotFoundError "config.secret.json"), []))
    by reflexivity.
  rewrite (script_not_loaded _ _ Hl) in Hrun. congruence.
Defined.

Lemma smoke_query_prints_row_counts_witness :
  fs rls_world "config.public.json" = Json (JObject public_json) /\
  exit_code (fst (run QueryTables.script rls_world)) = 0 /\
  printed (snd (run QueryTables.script rls_world))
  = [utf8 "page_views: 5 rows ✅";
     utf8 "sentence_embeddings: 0 rows (expected: 0) 🔒"].
Proof.
  split; [reflexivity|].
  destruct (smoke_query_prints_row_counts rls_world public_json
              (VStr (utf8 "https://abc.supabase.co")) (VStr (utf8 "anon-key"))
              {| data := [row 1; row 2; row 3; row 4; row 5]; count := None |}
              {| data := []; count := None |}
              eq_refl ltac:(by vm_compute) ltac:(by vm_compute)
              eq_refl eq_refl eq_refl)
    as (_ & _ & Hexit & Hprinted).
  split; [exact Hexit|]. exact (Hprinted eq_refl eq_refl).
Defined.

End Witnesses.

(** * Further properties of [06_add_question_cache.py] *)

Section Migration.

Lemma loads_unique (w : world) (g g' : config) :
  loads w g -> loads w g' -> g = g'.
Proof.
  intros (pub & sec & Hpub & Hsec & Hurl & Hkey & Htok & Href)
         (pub' & sec' & Hpub' & Hsec' & Hurl' & Hkey' & Htok' & Href').
  destruct g, g'. cbn [SUPABASE_URL SUPABASE_SERVICE_KEY SUPABASE_ACCESS_TOKEN
                       SUPABASE_PROJECT_REF] in *.
  congruence.
Qed.

(** X1.  The script exits with 0 or 1, and with 0 exactly when the
    configuration loads, the endpoint answers 200 or 201 and the query
    client is created; what the verification reads then say does not
    matter. *)
Theorem exit_zero_iff_verification_reached (w : world) :
  (exit_code (fst (run script w)) = 0 \/ exit_code (fst (run script w)) = 1) /\
  (exit_code (fst (run script w)) = 0 <->
   exists g resp, reaches_verification w g resp).
Proof.
  destruct (load_config_pure w []) as [(g & Hload & _)|(e & He & _ & Hno)].
  - rewrite (script_loaded w g Hload).
    assert (Hsame : forall g' resp', reaches_verification w g' resp' ->
              http_post w (migration_request g) = inr resp' /\
              accepted resp' = true /\
              client_error w (SUPABASE_URL g) (SUPABASE_SERVICE_KEY g) = None).
    { intros g' resp' [Hl Hp Hs Hc].
      rewrite (loads_unique w g g' Hload Hl).
      split; [done|]. split; [by apply accepted_spec|done]. }
    destruct (http_post w (migration_request g)) as [msg|resp] eqn:Hpost.
    + rewrite (main_after_raise w g [] _ _ (submission_raises w g [] msg Hpost)).
      cbn [fst exit_code]. split; [by right|]. split; [lia|].
      intros (g' & resp' & Hrv). by destruct (Hsame _ _ Hrv).
    + destruct (accepted resp) eqn:Hacc.
      * destruct (client_error w (SUPABASE_URL g) (SUPABASE_SERVICE_KEY g))
          as [msg|] eqn:Hcl.
        -- rewrite (main_after_raise w g [] _ _
                      (client_raises w g [] resp msg Hpost Hacc Hcl)).
           cbn [fst exit_code]. split; [by right|]. split; [lia|].
           intros (g' & resp' & Hrv). by destruct (Hsame _ _ Hrv) as (_ & _ & ?).
        -- destruct (verification_loop_total w (service_client g)
                       ([] ++ submission g ++ handover g))
             as (k & tail & Hloop & _ & _).
           pose proof (submission_accepted w g [] resp Hpost Hacc Hcl) as Hf.
           rewrite Hloop in Hf.
           rewrite (main_after_true w g [] _ Hf).
           cbn [fst exit_code]. split; [by left|]. split; [|done].
           intros _. exists g, resp. split; [done|done| |done].
           by apply accepted_spec.
      * rewrite (main_after_false w g [] _
                   (submission_rejected w g [] resp Hpost Hacc)).
        cbn [fst exit_code]. split; [by right|]. split; [lia|].
        intros (g' & resp' & Hrv). destruct (Hsame _ _ Hrv) as (Hp & Ha & _).
        congruence.
  - rewrite (script_not_loaded w e He).
    cbn [fst exit_code]. split; [by right|]. split; [lia|].
    intros (g & resp & [Hl _ _ _]). by destruct (Hno g).
Qed.

(** X2.  When [requests.post] itself raises (the endpoint cannot be
    reached), nothing catches the exception: the script stops right after
    the attempt, prints neither the success nor the failure line, creates
    no client, reads nothing, and exits with code 1. *)
Theorem post_exception_is_uncaught (w : world) (g : config) (msg : pystr) :
  loads w g ->
  http_post w (migration_request g) = inl msg ->
  run script w = (Raise (LibraryError msg), submission g) /\
  exit_code (fst (run script w)) = 1 /\
  queries (snd (run script w)) = 0%nat /\
  posts (snd (run script w)) = 1%nat.
Proof.
  intros Hload Hpost.
  rewrite (script_loaded w g Hload).
  by rewrite (main_after_raise w g [] _ _ (submission_raises w g [] msg Hpost)).
Qed.

(** X3.  [create_client] stands outside the [try]: when it raises after an
    accepted migration, the script has already printed the success line,
    yet it ends in the uncaught exception with exit code 1, without a read,
    a sleep or the soft warning. *)
Theorem client_exception_is_uncaught (w : world) (g : config)
    (resp : http_response) (msg : pystr) :
  loads w g ->
  http_post w (migration_request g) = inr resp ->
  status_code resp = 200 \/ status_code resp = 201 ->
  client_error w (SUPABASE_URL g) (SUPABASE_SERVICE_KEY g) = Some msg ->
  run script w = (Raise (LibraryError msg), submission g ++ handover g) /\
  Print created_line ∈ snd (run script w) /\
  exit_code (fst (run script w)) = 1 /\
  queries (snd (run script w)) = 0%nat /\
  sleeps (snd (run script w)) = 0%nat.
Proof.
  intros Hload Hpost Hst Hcl. apply accepted_spec in Hst.
  rewrite (script_loaded w g Hload).
  rewrite (main_after_raise w g [] _ _ (client_raises w g [] resp msg Hpost Hst Hcl)).
  split; [done|]. split; [|done].
  cbn [snd app]. rewrite elem_of_app. right. unfold handover. apply list_elem_of_here.
Qed.

(** X4.  When the first read that returns is the [k+1]-th, the script has
    slept exactly [k] times, [3 * k] time-units in all, prints the closing
    banner and exits with code 0. *)
Theorem sleeps_three_per_failed_read (w : world) (g : config)
    (resp : http_response) (k : nat) (r : api_response) :
  reaches_verification w g resp ->
  (k < 5)%nat ->
  (forall j, (j < k)%nat -> read_fails w (service_client g) j) ->
  read_returns w (service_client g) k r ->
  run script w
  = (Return tt,
     submission g ++ handover g
     ++ retry_rounds (service_client g) 0 k
     ++ verified_tail (service_client g) r ++ closing) /\
  sleeps (snd (run script w)) = k /\
  slept (snd (run script w)) = 3 * Z.of_nat k /\
  exit_code (fst (run script w)) = 0.
Proof.
  intros Hrv Hk Hfail Hret.
  assert (Hf : create_question_cache_table g w []
    = (Return (Some true),
       submission g ++ handover g
       ++ retry_rounds (service_client g) 0 k
       ++ verified_tail (service_client g) r)).
  { rewrite (reaches_verification_loop w g resp Hrv).
    rewrite (verification_loop_returns w (service_client g) k _ r);
      [by rewrite <- !app_assoc|lia| |exact Hret].
    intros j Hj. apply (Hfail j). lia. }
  rewrite (script_loaded w g (rv_loads _ _ _ Hrv)).
  rewrite (main_after_true w g [] _ Hf). rewrite <- !app_assoc.
  split; [done|]. cbn [fst snd].
  rewrite !sleeps_app, !slept_app, sleeps_retry_rounds, slept_retry_rounds.
  change (sleeps (submission g)) with 0%nat.
  change (sleeps (handover g)) with 0%nat.
  change (sleeps (verified_tail _ r)) with 0%nat.
  change (sleeps closing) with 0%nat.
  change (slept (submission g)) with 0.
  change (slept (handover g)) with 0.
  change (slept (verified_tail _ r)) with 0.
  change (slept closing) with 0.
  split; [lia|]. split; [lia|done].
Qed.




(** A list that starts with events other than reads, split at a read: the
    part before the read holds all of them. *)
Lemma split_after_prefix (l1 l2 a b : trace) (e : event) :
  Forall (fun x => is_execute x = false) l1 ->
  is_execute e = true ->
  l1 ++ l2 = a ++ e :: b ->
  exists a', a = l1 ++ a' /\ l2 = a' ++ e :: b.
Proof.
  revert a. induction l1 as [|x l1 IH]; intros a Hall He Heq.
  - by exists a.
  - apply Forall_cons in Hall as [Hx Hall].
    destruct a as [|y a]; cbn [app] in Heq.
    + injection Heq as -> _. congruence.
    + injection Heq as <- Heq.
      destruct (IH a Hall He Heq) as (a' & -> & ->). by exists a'.
Qed.

(** X6.  No read precedes the acceptance of the migration: wherever a read
    stands in the trace of a run, exactly one POST, answered 200 or 201,
    and the creation of the service-key client stand before it. *)
Theorem reads_follow_accepted_post (w : world) (a b : trace) (c : client) (q : query) :
  snd (run script w) = a ++ Execute c q :: b ->
  exists g resp,
    loads w g /\
    http_post w (migration_request g) = inr resp /\
    (status_code resp = 200 \/ status_code resp = 201) /\
    posts a = 1%nat /\
    Post (migration_request g) ∈ a /\
    CreateClient (SUPABASE_URL g) (SUPABASE_SERVICE_KEY g) ∈ a.
Proof.
  intros Heq.
  assert (Hin : Execute c q ∈ snd (run script w)).
  { rewrite Heq, elem_of_app. right. apply list_elem_of_here. }
  destruct (load_config_pure w []) as [(g & Hload & _)|(e & He & _)].
  - destruct (run_cases w g Hload) as [msg|resp|resp msg|resp k tail Hpost Hacc Hend ?];
      cbn [snd] in Heq, Hin.
    + unfold submission in Hin. in_listed Hin.
    + unfold submission in Hin. cbn [app] in Hin. in_listed Hin.
    + unfold submission, handover in Hin. cbn [app] in Hin. in_listed Hin.
    + clear Hin. rewrite app_assoc in Heq.
      apply split_after_prefix in Heq as (a' & -> & Hrest);
        [| unfold submission, handover; cbn [app]; by repeat constructor | done].
      exists g, resp. split; [done|]. split; [done|].
      split; [by apply accepted_spec|].
      assert (Hp : posts (a' ++ Execute c q :: b) = 0%nat).
      { rewrite <- Hrest, !posts_app, posts_retry_rounds.
        destruct (ending_counts _ _ _ Hend) as (_ & -> & _). done. }
      rewrite posts_app in Hp. rewrite !posts_app.
      change (posts (submission g)) with 1%nat.
      change (posts (handover g)) with 0%nat.
      split; [lia|]. split.
      * rewrite !elem_of_app. left. left. unfold submission.
        do 4 apply list_elem_of_further. apply list_elem_of_here.
      * rewrite !elem_of_app. left. right. unfold handover.
        do 2 apply list_elem_of_further. apply list_elem_of_here.
  - rewrite (script_not_loaded w e He) in Hin. by apply elem_of_nil in Hin.
Qed.

(** X7.  Whatever the world does, one run of the script makes at most six
    network calls (one POST and five reads), sleeps at most four times,
    blocks for at most 12 time-units, and creates at most one client. *)
Theorem run_is_bounded (w : world) :
  (network_calls (snd (run script w)) <= 6)%nat /\
  (queries (snd (run script w)) <= 5)%nat /\
  (sleeps (snd (run script w)) <= 4)%nat /\
  0 <= slept (snd (run script w)) <= 12 /\
  (length (List.filter is_create_client (snd (run script w))) <= 1)%nat.
Proof.
  destruct (load_config_pure w []) as [(g & Hload & _)|(e & He & _)].
  - destruct (run_cases w g Hload) as [msg|resp|resp msg|resp k tail ? ? Hend ?];
      cbn [snd].
    + cbn. lia.
    + cbn. lia.
    + cbn. lia.
    + pose proof (ending_le _ _ _ Hend) as Hk.
      destruct (ending_counts _ _ _ Hend) as (Hq & Hp & Hs & Hz).
      rewrite !network_calls_app, !queries_app, !sleeps_app, !slept_app,
        !List.filter_app, !List.length_app,
        queries_retry_rounds, sleeps_retry_rounds, slept_retry_rounds, Hq, Hs, Hz.
      change (network_calls (submission g)) with 1%nat.
      change (network_calls (handover g)) with 0%nat.
      change (network_calls closing) with 0%nat.
      change (queries (submission g)) with 0%nat.
      change (queries (handover g)) with 0%nat.
      change (queries closing) with 0%nat.
      change (sleeps (submission g)) with 0%nat.
      change (sleeps (handover g)) with 0%nat.
      change (sleeps closing) with 0%nat.
      change (slept (submission g)) with 0.
      change (slept (handover g)) with 0.
      change (slept closing) with 0.
      change (length (List.filter is_create_client (submission g))) with 0%nat.
      change (length (List.filter is_create_client (handover g))) with 1%nat.
      change (length (List.filter is_create_client closing)) with 0%nat.
      assert (network_calls (retry_rounds (service_client g) 0 k) = k) as ->.
      { generalize 0%nat. clear. induction k as [|k IH]; intros i; [done|].
        cbn [retry_rounds]. rewrite network_calls_app, IH. done. }
      assert (length (List.filter is_create_client
                (retry_rounds (service_client g) 0 k)) = 0%nat) as ->.
      { generalize 0%nat at 1. clear. induction k as [|k IH]; intros i; [done|].
        cbn [retry_rounds]. rewrite List.filter_app, List.length_app, IH. done. }
      assert (network_calls tail = 1%nat /\
              length (List.filter is_create_client tail) = 0%nat) as [-> ->]
        by (by destruct Hend).
      lia.
  - rewrite (script_not_loaded w e He). cbn. lia.
Qed.

End Migration.

(** ** What a run depends on *)

Section Dependence.

Lemma service_only_ret {A} (a : A) : service_only (ret a).
Proof. by intros w w' t _. Qed.

Lemma service_only_emit (e : event) : service_only (emit e).
Proof. by intros w w' t _. Qed.

Lemma service_only_sys_exit {A} (code : Z) : service_only (@sys_exit A code).
Proof. by intros w w' t _. Qed.

Lemma service_only_bind {A B} (m : M A) (k : A -> M B) :
  service_only m -> (forall a, service_only (k a)) -> service_only (bind m k).
Proof.
  intros Hm Hk w w' t Hs. unfold bind. rewrite (Hm w w' t Hs).
  destruct (m w' t) as [[a|e|code] t']; [by apply Hk|done|done].
Qed.

Lemma service_only_try_except {A} (body : M A) (handler : exn -> M A) :
  service_only body -> (forall e, service_only (handler e)) ->
  service_only (try_except body handler).
Proof.
  intros Hb Hh w w' t Hs. unfold try_except. rewrite (Hb w w' t Hs).
  destruct (body w' t) as [[a|e|code] t']; [done|by apply Hh|done].
Qed.

Lemma service_only_for_in {R} (xs : list Z) (body : Z -> M (option R)) :
  (forall x, service_only (body x)) -> service_only (for_in xs body).
Proof.
  intros Hb. induction xs as [|x xs IH]; cbn [for_in].
  - apply service_only_ret.
  - apply service_only_bind; [done|].
    intros [v|]; [apply service_only_ret|done].
Qed.

Lemma service_only_requests_post (req : http_request) :
  service_only (requests_post req).
Proof. intros w w' t (Hp & _ & _). unfold requests_post. by rewrite Hp. Qed.

Lemma service_only_create_client (url key : pyval) :
  service_only (create_client url key).
Proof. intros w w' t (_ & Hc & _). unfold create_client. by rewrite Hc. Qed.

Lemma service_only_execute (c : client) (q : query) :
  service_only (execute c q).
Proof. intros w w' t (_ & _ & Hq). unfold execute. by rewrite Hq. Qed.

Lemma service_only_verify_attempt (c : client) (attempt : Z) :
  service_only (verify_attempt c attempt).
Proof.
  unfold verify_attempt. apply service_only_try_except.
  - apply service_only_bind; [apply service_only_execute|]. intros r.
    apply service_only_bind; [apply service_only_emit|]. intros _.
    apply service_only_ret.
  - intros e. destruct (attempt <? 4).
    + repeat (apply service_only_bind; [apply service_only_emit|]; intros _).
      apply service_only_ret.
    + repeat (apply service_only_bind; [apply service_only_emit|]; intros _).
      apply service_only_ret.
Qed.

Lemma service_only_create_question_cache_table (g : config) :
  service_only (create_question_cache_table g).
Proof.
  unfold create_question_cache_table.
  repeat (apply service_only_bind; [apply service_only_emit|]; intros _).
  apply service_only_bind; [apply service_only_requests_post|]. intros resp.
  destruct (accepted resp).
  - repeat (apply service_only_bind; [apply service_only_emit|]; intros _).
    apply service_only_bind; [apply service_only_create_client|]. intros c.
    apply service_only_for_in. intros x. apply service_only_verify_attempt.
  - repeat (apply service_only_bind; [apply service_only_emit|]; intros _).
    apply service_only_ret.
Qed.

Lemma service_only_main (g : config) : service_only (main g).
Proof.
  unfold main.
  apply service_only_bind; [apply service_only_create_question_cache_table|].
  intros r. apply service_only_bind.
  - destruct (negb (truthy r)); [apply service_only_sys_exit|apply service_only_ret].
  - intros _.
    repeat (apply service_only_bind; [apply service_only_emit|]; intros _).
    apply service_only_emit.
Qed.

(** X8.  Of the public file the migration script uses the service URL and
    nothing else: two worlds with the same services and the same secret
    file, whose public files are objects that agree on [SUPABASE_URL], run
    alike, whatever else (the anonymous key, say) the public files hold or
    lack. *)
Theorem public_file_matters_through_url_only (w w' : world)
    (pub pub' : gmap string pyval) :
  same_services w w' ->
  fs w "config.secret.json" = fs w' "config.secret.json" ->
  fs w "config.public.json" = Json (JObject pub) ->
  fs w' "config.public.json" = Json (JObject pub') ->
  pub !! "SUPABASE_URL" = pub' !! "SUPABASE_URL" ->
  run script w = run script w'.
Proof.
  intros Hs Hsec Hpub Hpub' Hurl.
  assert (Hl : load_config w [] = load_config w' []).
  { cbv [load_config bind load_json subscript ret raise].
    rewrite Hpub, Hpub', Hsec. cbv beta iota.
    destruct (fs w' "config.secret.json") as [| |?|[sec|?]]; try done.
    all: rewrite Hurl; destruct (pub' !! "SUPABASE_URL"); try done.
    destruct (sec !! "SUPABASE_SERVICE_KEY"); [|done].
    destruct (sec !! "SUPABASE_ACCESS_TOKEN"); [|done].
    by destruct (sec !! "SUPABASE_PROJECT_REF"). }
  unfold run, script, bind. rewrite Hl.
  destruct (load_config w' []) as [[g|e|code] t]; [|done|done].
  by apply service_only_main.
Qed.

End Dependence.

(** * Further properties of [query_tables.py] *)

Section Demo.

Ltac demo_steps :=
  cbv [run QueryTables.script bind load_json subscript ret raise create_client
       execute print emit QueryTables.len].

(** Every run of the demo has one of five shapes. *)
Lemma demo_cases (w : world) : demo_shape w (run QueryTables.script w).
Proof.
  demo_steps.
  destruct (fs w "config.public.json") as [| |?|[pub|?]] eqn:Hpub;
    try (apply DemoConfig; [done|]; intros ? ? (? & ? & ? & ?); congruence).
  destruct (pub !! "SUPABASE_URL") as [url|] eqn:Hurl;
    [|apply DemoConfig; [done|]; intros ? ? (? & ? & ? & ?); congruence].
  destruct (pub !! "SUPABASE_ANON_KEY") as [key|] eqn:Hkey;
    [|apply DemoConfig; [done|]; intros ? ? (? & ? & ? & ?); congruence].
  assert (Hload : demo_loads w url key) by (by exists pub).
  destruct (client_error w url key) as [msg|] eqn:Hcl;
    [by apply (DemoClient w url key)|].
  change (queries ([] ++ [CreateClient url key])) with 0%nat.
  fold (client_of url key).
  destruct (query_layer w 0 (client_of url key) QueryTables.page_views_query)
    as [msg|rA] eqn:HA; [by apply (DemoFirst w url key)|].
  change (queries _) with 1%nat.
  destruct (query_layer w 1 (client_of url key)
              QueryTables.sentence_embeddings_query) as [msg|rB] eqn:HB.
  - by apply (DemoSecond w url key rA).
  - by apply (DemoDone w url key rA rB).
Qed.

(** X9.  The demo needs the public file with both the service URL and the
    anonymous key: without them it ends in an uncaught exception of the
    configuration load before a client is created or anything is read or
    printed, with exit code 1. *)
Theorem demo_needs_url_and_anon_key (w : world) :
  (forall url key, ~ demo_loads w url key) ->
  exists e,
    run QueryTables.script w = (Raise e, []) /\
    is_config_error e = true /\
    exit_code (fst (run QueryTables.script w)) = 1.
Proof.
  intros Hno.
  destruct (demo_cases w) as [e He _|url key msg Hl|url key msg Hl
                             |url key rA msg Hl|url key rA rB Hl];
    try by destruct (Hno url key).
  by exists e.
Qed.

(** X10.  The demo handles no error: when the first read raises, the
    second is never issued and nothing is printed; when the second raises,
    the [page_views] line has been printed and the [sentence_embeddings]
    line is not.  Either way the exit code is 1. *)
Theorem demo_stops_at_first_failed_read (w : world) (url key : pyval) :
  demo_loads w url key ->
  client_error w url key = None ->
  (forall msg,
     query_layer w 0 (client_of url key) QueryTables.page_views_query = inl msg ->
     run QueryTables.script w
     = (Raise (LibraryError msg),
        [CreateClient url key;
         Execute (client_of url key) QueryTables.page_views_query]) /\
     printed (snd (run QueryTables.script w)) = [] /\
     queries (snd (run QueryTables.script w)) = 1%nat /\
     exit_code (fst (run QueryTables.script w)) = 1) /\
  (forall rA msg,
     query_layer w 0 (client_of url key) QueryTables.page_views_query = inr rA ->
     query_layer w 1 (client_of url key) QueryTables.sentence_embeddings_query
     = inl msg ->
     fst (run QueryTables.script w) = Raise (LibraryError msg) /\
     printed (snd (run QueryTables.script w))
     = [page_views_line (length (data rA))] /\
     queries (snd (run QueryTables.script w)) = 2%nat /\
     exit_code (fst (run QueryTables.script w)) = 1).
Proof.
  intros (pub & Hpub & Hurl & Hkey) Hcl.
  split.
  - intros msg HA.
    assert (Hrun : run QueryTables.script w
      = (Raise (LibraryError msg),
         [CreateClient url key;
          Execute (client_of url key) QueryTables.page_views_query])).
    { demo_steps. rewrite Hpub, Hurl, Hkey, Hcl.
      change (queries ([] ++ [CreateClient url key])) with 0%nat.
      fold (client_of url key). by rewrite HA. }
    by rewrite Hrun.
  - intros rA msg HA HB.
    assert (Hrun : run QueryTables.script w
      = (Raise (LibraryError msg),
         [CreateClient url key;
          Execute (client_of url key) QueryTables.page_views_query;
          Print (page_views_line (length (data rA)));
          Execute (client_of url key) QueryTables.sentence_embeddings_query])).
    { demo_steps. rewrite Hpub, Hurl, Hkey, Hcl.
      change (queries ([] ++ [CreateClient url key])) with 0%nat.
      fold (client_of url key). rewrite HA.
      change (queries _) with 1%nat. by rewrite HB. }
    by rewrite Hrun.
Qed.

(** X11.  Whatever the world does, the demo posts nothing, never sleeps,
    creates at most one client and reads at most twice; it prints a line
    only after the read it reports, and it exits with 0 exactly when the
    configuration loads, the client is created and both reads return. *)
Theorem demo_is_read_only_and_bounded (w : world) :
  posts (snd (run QueryTables.script w)) = 0%nat /\
  sleeps (snd (run QueryTables.script w)) = 0%nat /\
  (queries (snd (run QueryTables.script w)) <= 2)%nat /\
  (length (List.filter is_create_client (snd (run QueryTables.script w))) <= 1)%nat /\
  (length (printed (snd (run QueryTables.script w)))
   <= queries (snd (run QueryTables.script w)))%nat /\
  (exit_code (fst (run QueryTables.script w)) = 0 \/
   exit_code (fst (run QueryTables.script w)) = 1) /\
  (exit_code (fst (run QueryTables.script w)) = 0 <->
   exists url key rA rB,
     demo_loads w url key /\
     client_error w url key = None /\
     query_layer w 0 (client_of url key) QueryTables.page_views_query = inr rA /\
     query_layer w 1 (client_of url key) QueryTables.sentence_embeddings_query
     = inr rB).
Proof.
  assert (Huniq : forall url key url' key',
            demo_loads w url key -> demo_loads w url' key' ->
            url' = url /\ key' = key).
  { intros url key url' key' (pub & Hp & Hu & Hk) (pub' & Hp' & Hu' & Hk').
    split; congruence. }
  destruct (demo_cases w) as [e He Hno|url key msg Hl Hcl|url key msg Hl Hcl HA
                             |url key rA msg Hl Hcl HA HB|url key rA rB Hl Hcl HA HB];
    cbn [fst snd exit_code].
  - do 4 (split; [cbn; lia|]). split; [cbn; lia|]. split; [by right|]. split; [lia|].
    intros (url & key & _ & _ & Hl & _). by destruct (Hno url key).
  - do 4 (split; [cbn; lia|]). split; [cbn; lia|]. split; [by right|]. split; [lia|].
    intros (url' & key' & _ & _ & Hl' & Hcl' & _).
    destruct (Huniq _ _ _ _ Hl Hl') as [-> ->]. congruence.
  - do 4 (split; [cbn; lia|]). split; [cbn; lia|]. split; [by right|]. split; [lia|].
    intros (url' & key' & rA' & _ & Hl' & _ & HA' & _).
    destruct (Huniq _ _ _ _ Hl Hl') as [-> ->]. congruence.
  - do 4 (split; [cbn; lia|]). split; [cbn; lia|]. split; [by right|]. split; [lia|].
    intros (url' & key' & _ & rB' & Hl' & _ & _ & HB').
    destruct (Huniq _ _ _ _ Hl Hl') as [-> ->]. congruence.
  - do 4 (split; [cbn; lia|]). split; [cbn; lia|]. split; [by left|]. split; [|done].
    intros _. by exists url, key, rA, rB.
Qed.

(** X12.  The demo runs on the public file and the query layer alone: two
    worlds that agree on [config.public.json], on [create_client] and on
    the query layer run alike, whatever their secret files and their
    management endpoints are. *)
Theorem demo_ignores_secret_file_and_endpoint (w w' : world) :
  fs w "config.public.json" = fs w' "config.public.json" ->
  (forall url key, client_error w url key = client_error w' url key) ->
  (forall n c q, query_layer w n c q = query_layer w' n c q) ->
  run QueryTables.script w = run QueryTables.script w'.
Proof.
  intros Hfs Hcl Hq. demo_steps. rewrite Hfs.
  destruct (fs w' "config.public.json") as [| |?|[pub|?]]; try done.
  destruct (pub !! "SUPABASE_URL") as [url|]; [|done].
  destruct (pub !! "SUPABASE_ANON_KEY") as [key|]; [|done].
  rewrite Hcl. destruct (client_error w' url key); [done|].
  rewrite Hq.
  destruct (query_layer w' _ _ QueryTables.page_views_query); [done|].
  rewrite Hq.
  by destruct (query_layer w' _ _ QueryTables.sentence_embeddings_query).
Qed.

End Demo.

(** * The further properties on the sample worlds *)

Section FurtherWitnesses.

Import Samples.

Lemma full_disk_loads (w : world) : fs w = full_disk -> loads w cfg.
Proof.
  intros H. exists public_json, secret_json. rewrite H. vm_compute. tauto.
Defined.

Lemma full_disk_demo_loads (w : world) :
  fs w = full_disk ->
  demo_loads w (VStr (utf8 "https://abc.supabase.co")) (VStr (utf8 "anon-key")).
Proof.
  intros H. exists public_json. rewrite H. vm_compute. tauto.
Defined.

Lemma post_exception_is_uncaught_witness :
  http_post unreachable_endpoint (migration_request cfg)
  = inl (utf8 "Connection refused") /\
  run script unreachable_endpoint
  = (Raise (LibraryError (utf8 "Connection refused")), submission cfg) /\
  exit_code (fst (run script unreachable_endpoint)) = 1.
Proof.
  split; [reflexivity|].
  destruct (post_exception_is_uncaught unreachable_endpoint cfg
              (utf8 "Connection refused")
              (full_disk_loads unreachable_endpoint eq_refl) eq_refl)
    as (Hrun & Hexit & _).
  split; [exact Hrun|exact Hexit].
Defined.

Lemma client_exception_is_uncaught_witness :
  client_error client_refused (SUPABASE_URL cfg) (SUPABASE_SERVICE_KEY cfg)
  = Some (utf8 "Invalid API key") /\
  Print created_line ∈ snd (run script client_refused) /\
  exit_code (fst (run script client_refused)) = 1 /\
  queries (snd (run script client_refused)) = 0%nat.
Proof.
  split; [reflexivity|].
  destruct (client_exception_is_uncaught client_refused cfg accepted_200
              (utf8 "Invalid API key")
              (full_disk_loads client_refused eq_refl) eq_refl
              (or_introl eq_refl) eq_refl)
    as (_ & Hin & Hexit & Hq & _).
  split; [exact Hin|]. split; [exact Hexit|exact Hq].
Defined.

Lemma sleeps_three_per_failed_read_witness :
  read_returns visible_on_third (service_client cfg) 2
    {| data := []; count := Some 3 |} /\
  sleeps (snd (run script visible_on_third)) = 2%nat /\
  slept (snd (run script visible_on_third)) = 6 /\
  exit_code (fst (run script visible_on_third)) = 0.
Proof.
  split; [reflexivity|].
  destruct (sleeps_three_per_failed_read visible_on_third cfg accepted_200 2
              {| data := []; count := Some 3 |}
              (sample_reaches 200 2 (Some 3) (or_introl eq_refl))
              ltac:(lia)
              (fun n Hn => sample_fails 200 [] 2 (Some 3) _ n Hn) eq_refl)
    as (_ & Hs & Hz & Hexit).
  split; [exact Hs|]. split; [exact Hz|exact Hexit].
Defined.

Lemma reads_follow_accepted_post_witness :
  snd (run script visible_at_once)
  = (submission cfg ++ handover cfg)
    ++ Execute (service_client cfg) verify_query
    :: (Print (verified_line 0) :: closing) /\
  posts (submission cfg ++ handover cfg) = 1%nat.
Proof.
  assert (Heq : snd (run script visible_at_once)
    = (submission cfg ++ handover cfg)
      ++ Execute (service_client cfg) verify_query
      :: (Print (verified_line 0) :: closing)) by (by vm_compute).
  split; [exact Heq|].
  destruct (reads_follow_accepted_post visible_at_once _ _ _ _ Heq)
    as (g & resp & _ & _ & _ & Hp & _).
  exact Hp.
Defined.

Lemma public_file_matters_through_url_only_witness :
  fs url_only_visible "config.public.json"
  = Json (JObject {[ "SUPABASE_URL" := VStr (utf8 "https://abc.supabase.co") ]}) /\
  run script visible_at_once = run script url_only_visible.
Proof.
  split; [reflexivity|].
  apply (public_file_matters_through_url_only visible_at_once url_only_visible
           public_json
           {[ "SUPABASE_URL" := VStr (utf8 "https://abc.supabase.co") ]}).
  - split; [|split]; reflexivity.
  - reflexivity.
  - reflexivity.
  - reflexivity.
  - by vm_compute.
Defined.

Lemma demo_needs_url_and_anon_key_witness :
  (forall url key, ~ demo_loads no_public_file url key) /\
  snd (run QueryTables.script no_public_file) = [] /\
  exit_code (fst (run QueryTables.script no_public_file)) = 1.
Proof.
  assert (Hno : forall url key, ~ demo_loads no_public_file url key).
  { intros url key (pub & Hpub & _). vm_compute in Hpub. discriminate. }
  split; [exact Hno|].
  destruct (demo_needs_url_and_anon_key no_public_file Hno)
    as (e & Hrun & _ & Hexit).
  split; [by rewrite Hrun|exact Hexit].
Defined.

Lemma demo_stops_at_first_failed_read_witness :
  query_layer rls_first_fails 0
    (client_of (VStr (utf8 "https://abc.supabase.co")) (VStr (utf8 "anon-key")))
    QueryTables.page_views_query
  = inl (utf8 "permission denied for table page_views") /\
  printed (snd (run QueryTables.script rls_first_fails)) = [] /\
  queries (snd (run QueryTables.script rls_first_fails)) = 1%nat /\
  exit_code (fst (run QueryTables.script rls_first_fails)) = 1.
Proof.
  split; [reflexivity|].
  destruct (demo_stops_at_first_failed_read rls_first_fails _ _
              (full_disk_demo_loads rls_first_fails eq_refl) eq_refl)
    as [Hfirst _].
  destruct (Hfirst (utf8 "permission denied for table page_views") eq_refl)
    as (_ & Hp & Hq & Hexit).
  split; [exact Hp|]. split; [exact Hq|exact Hexit].
Defined.

Lemma demo_ignores_secret_file_and_endpoint_witness :
  fs rls_world_no_secret "config.secret.json" = NoSuchFile /\
  run QueryTables.script rls_world = run QueryTables.script rls_world_no_secret.
Proof.
  split; [reflexivity|].
  apply (demo_ignores_secret_file_and_endpoint rls_world rls_world_no_secret);
    reflexivity.
Defined.

End FurtherWitnesses.
